(** * dot-rapid: the permission resolver and the GeoView projection

    A shallow embedding of [rapid/models.py] and of the role and layer
    handlers of [rapid/views.py].  The database is a record of tables, every
    table a list of rows in table order; a queryset is the list of rows a
    filter keeps.  The geometry engine (GEOS / PostGIS) is external: the type
    of geometries and the [geom__intersects] lookup are parameters. *)

From Stdlib Require Import List String Bool ZArith Lia Permutation.
Import ListNotations.

Local Open Scope Z_scope.
Local Open Scope list_scope.

(** ** Roles ([models.Role]) *)

Inductive Role : Type := VIEWER | EDITOR | OWNER.

Definition role_value (r : Role) : Z :=
  match r with
  | VIEWER => 0
  | EDITOR => 1
  | OWNER => 2
  end.

(** Python's [==] on the enum's integer values. *)
Definition role_eqb (a b : Role) : bool := role_value a =? role_value b.

(** ** Exceptions and handler outcomes *)

Inductive Exn : Type :=
| TypeError (msg : string)
| ValueError (msg : string)
| IntegrityError (msg : string).

(** What a view function hands back: [HttpResponse(json_error(message))],
    [HttpResponse(to_json(uid))], or an exception that escapes the view. *)
Inductive Outcome : Type :=
| JsonError (message : string)
| ToJson (uid : string)
| Raised (e : Exn).

(** A decoded JSON scalar of a request body. *)
Inductive Json : Type :=
| JNull
| JBool (b : bool)
| JNum (n : Z)
| JStr (s : string).

(** Python truthiness of a token key: [None] and the empty string are false. *)
Definition truthy (token_key : option string) : bool :=
  match token_key with
  | None => false
  | Some k => negb (k =? "")%string
  end.

Section Rapid.

(** The geometry values held by a [GeometryField]. *)
Variable Geometry : Type.

(** The [geom__intersects] lookup on two non-null geometries: the row's
    geometry first, the queried geometry second. *)
Variable intersects : Geometry -> Geometry -> bool.

(** ** Models *)

Record ApiToken : Type := mkApiToken {
  tk_uid : string;
  tk_key : string;
  tk_descriptor : string;
  tk_issued : option Z
}.

Record DataLayer : Type := mkDataLayer {
  dl_uid : string;
  dl_descriptor : string;
  dl_properties : option string;
  dl_is_public : bool;
  dl_include_features : option bool
}.

Record GeoView : Type := mkGeoView {
  gv_uid : string;
  gv_descriptor : string;
  gv_geom : option Geometry;
  gv_bbox : option Geometry;
  gv_properties : option string;
  gv_is_public : bool;
  gv_include_layers : option bool;
  gv_include_geom : option bool;
  gv_token_key : option string
}.

Record Feature : Type := mkFeature {
  ft_uid : string;
  ft_geom : option Geometry;
  ft_bbox : option Geometry;
  ft_properties : option string;
  ft_create_timestamp : option Z;
  ft_layer : option string;
  ft_hash : option string;
  ft_modified_timestamp : option Z
}.

(** [GeoViewRole]: token, role, geo_view (foreign keys hold the uid). *)
Record GeoViewRole : Type := mkGeoViewRole {
  gvr_token_id : string;
  gvr_role : Role;
  gvr_geo_view_id : string
}.

(** [DataLayerRole]: token, role, layer. *)
Record DataLayerRole : Type := mkDataLayerRole {
  dlr_token_id : string;
  dlr_role : Role;
  dlr_layer_id : string
}.

(** Values passed as keyword arguments to a model constructor: a string, a
    role, or what [data.get_apitoken()] gave (a token instance or [None]). *)
Inductive Value : Type :=
| VStr (s : string)
| VRole (r : Role)
| VToken (t : option ApiToken).

Definition kwargs : Type := list (string * Value).

(** The database.  [geoview_layers] is the join table of
    [GeoView.layers = ManyToManyField('DataLayer')], rows
    (geoview uid, datalayer uid). *)
Record Store : Type := mkStore {
  apitokens : list ApiToken;
  datalayers : list DataLayer;
  geoviews : list GeoView;
  geoview_layers : list (string * string);
  features : list Feature;
  geoviewroles : list GeoViewRole;
  datalayerroles : list DataLayerRole
}.

Definition set_datalayerroles (st : Store) (rs : list DataLayerRole) : Store :=
  mkStore (apitokens st) (datalayers st) (geoviews st) (geoview_layers st)
          (features st) (geoviewroles st) rs.

Definition set_geoviewroles (st : Store) (rs : list GeoViewRole) : Store :=
  mkStore (apitokens st) (datalayers st) (geoviews st) (geoview_layers st)
          (features st) rs (datalayerroles st).

Definition set_datalayers (st : Store) (ls : list DataLayer) : Store :=
  mkStore (apitokens st) ls (geoviews st) (geoview_layers st)
          (features st) (geoviewroles st) (datalayerroles st).

Definition set_geoview_layers (st : Store) (js : list (string * string)) : Store :=
  mkStore (apitokens st) (datalayers st) (geoviews st) js
          (features st) (geoviewroles st) (datalayerroles st).

Definition set_features (st : Store) (fs : list Feature) : Store :=
  mkStore (apitokens st) (datalayers st) (geoviews st) (geoview_layers st)
          fs (geoviewroles st) (datalayerroles st).

(** ** [DataLayer.has_permissions] *)

(** The [token__key=token_key] condition of a role row: the row's token,
    joined on its uid, carries that key. *)
Definition token__key (st : Store) (token_id : string) (token_key : string) : bool :=
  existsb (fun t => (tk_uid t =? token_id)%string && (tk_key t =? token_key)%string)
          (apitokens st).

(** [DataLayerRole.objects.filter(token__key=.., layer__uid=.., role=..)]. *)
Definition DataLayerRole_filter (st : Store) (token_key layer_uid : string) (role : Role)
  : list DataLayerRole :=
  filter (fun r => token__key st (dlr_token_id r) token_key
                   && (dlr_layer_id r =? layer_uid)%string
                   && role_eqb (dlr_role r) role)
         (datalayerroles st).

Definition count {A : Type} (qs : list A) : Z := Z.of_nat (List.length qs).

Definition has_permissions (st : Store) (self : DataLayer)
           (token_key : option string) (role : Role) : bool :=
  if dl_is_public self && role_eqb role VIEWER then true
  else if negb (truthy token_key) then false
  else
    match token_key with
    | None => false
    | Some k =>
        let owners := DataLayerRole_filter st k (dl_uid self) OWNER in
        let editors := DataLayerRole_filter st k (dl_uid self) EDITOR in
        let viewers := DataLayerRole_filter st k (dl_uid self) VIEWER in
        match role with
        | OWNER =>
            if count owners >? 0 then true else false
        | EDITOR =>
            if (count owners >? 0) || (count editors >? 0) then true else false
        | VIEWER =>
            if (count owners >? 0) || (count editors >? 0) || (count viewers >? 0)
            then true else false
        end
    end.

(** ** The resolver as the specification words it *)

Definition role_le (a b : Role) : bool := role_value a <=? role_value b.

Definition role_max (a b : Role) : Role := if role_le a b then b else a.

(** The greatest role in a list, [None] for no role at all. *)
Fixpoint max_role (rs : list Role) : option Role :=
  match rs with
  | [] => None
  | r :: rest =>
      match max_role rest with
      | None => Some r
      | Some m => Some (role_max r m)
      end
  end.

(** The roles bound to the credential with key [k] on layer [layer_uid]. *)
Definition bound_roles (st : Store) (k layer_uid : string) : list Role :=
  map dlr_role
      (filter (fun r => token__key st (dlr_token_id r) k
                        && (dlr_layer_id r =? layer_uid)%string)
              (datalayerroles st)).

Definition has_permission_spec (st : Store) (k layer_uid : string) (required : Role) : bool :=
  match max_role (bound_roles st k layer_uid) with
  | None => false
  | Some m => role_le required m
  end.

(** The credential with key [k] holds a binding of role [r] on the layer. *)
Definition holds (st : Store) (k layer_uid : string) (r : Role) : Prop :=
  exists b, In b (datalayerroles st)
            /\ token__key st (dlr_token_id b) k = true
            /\ dlr_layer_id b = layer_uid
            /\ dlr_role b = r.


(** ** [GeoView]: the layer association and the projection *)

(** [self.layers.all()]: the join table's rows of this view, each joined
    with the [DataLayer] rows carrying its layer uid.  The query has no
    ordering: the list is the rows in table order, one of the orders the
    database may return them in. *)
Definition layers_all (st : Store) (self : GeoView) : list DataLayer :=
  flat_map (fun row =>
              if (fst row =? gv_uid self)%string
              then filter (fun l => (dl_uid l =? snd row)%string) (datalayers st)
              else [])
           (geoview_layers st).

(** [GeoView.add_layer]: [self.layers.add(layer)] writes a join row unless
    the pair is already related. *)
Definition add_layer (st : Store) (self : GeoView) (layer : DataLayer) : Store :=
  if existsb (fun row => (fst row =? gv_uid self)%string && (snd row =? dl_uid layer)%string)
             (geoview_layers st)
  then st
  else set_geoview_layers st (geoview_layers st ++ [(gv_uid self, dl_uid layer)]).

(** [GeoView.remove_layer]: [self.layers.remove(layer)]. *)
Definition remove_layer (st : Store) (self : GeoView) (layer : DataLayer) : Store :=
  set_geoview_layers st
    (filter (fun row => negb ((fst row =? gv_uid self)%string && (snd row =? dl_uid layer)%string))
            (geoview_layers st)).

(** [layer.feature_set]: the features whose [layer] key is this layer. *)
Definition feature_set (st : Store) (layer : DataLayer) : list Feature :=
  filter (fun f => match ft_layer f with
                   | Some l => (l =? dl_uid layer)%string
                   | None => false
                   end)
         (features st).

(** [.filter(geom__intersects=geom)]: [None] is refused as a query value; a
    row without geometry never satisfies the lookup. *)
Definition filter_geom__intersects (qs : list Feature) (geom : option Geometry)
  : Exn + list Feature :=
  match geom with
  | None => inl (ValueError "Cannot use None as a query value")
  | Some g =>
      inr (filter (fun f => match ft_geom f with
                            | Some fg => intersects fg g
                            | None => false
                            end) qs)
  end.

(** An element of the projection: [{'uid': .., 'features': [..]}]. *)
Record Entry : Type := mkEntry {
  entry_uid : string;
  entry_features : list string
}.

(** The loop of [GeoView.get_features], [results] being the accumulator. *)
Fixpoint get_features_loop (st : Store) (self : GeoView) (layers : list DataLayer)
         (results : list Entry) : Exn + list Entry :=
  match layers with
  | [] => inr results
  | layer :: rest =>
      if has_permissions st layer (gv_token_key self) VIEWER then
        match filter_geom__intersects (feature_set st layer) (gv_geom self) with
        | inl e => inl e
        | inr fs =>
            get_features_loop st self rest
              (results ++ [mkEntry (dl_uid layer) (map ft_uid fs)])
        end
      else get_features_loop st self rest results
  end.

Definition get_features (st : Store) (self : GeoView) : Exn + list Entry :=
  get_features_loop st self (layers_all st self) [].

(** ** Model constructors followed by [save()] *)

Fixpoint kw_get (kw : kwargs) (name : string) : option Value :=
  match kw with
  | [] => None
  | (n, v) :: rest => if (n =? name)%string then Some v else kw_get rest name
  end.

(** The first keyword that names no field of the model. *)
Definition kw_invalid (fields : list string) (kw : kwargs) : option string :=
  match filter (fun p => negb (existsb (String.eqb (fst p)) fields)) kw with
  | [] => None
  | (n, _) :: _ => Some n
  end.

Definition invalid_keyword (n : string) : Exn :=
  TypeError ("'" ++ n ++ "' is an invalid keyword argument for this function")%string.

Definition cannot_assign (field : string) : Exn :=
  ValueError ("Cannot assign None: " ++ field ++ " does not allow null values.")%string.

(** The token column of a role row: the keyword [token] carries an instance,
    whose primary key is stored, and refuses anything else; the keyword
    [token_id] carries the key itself. *)
Definition kw_token (model : string) (kw : kwargs) : Exn + option string :=
  match kw_get kw "token" with
  | Some (VToken (Some t)) => inr (Some (tk_uid t))
  | Some _ => inl (cannot_assign (model ++ ".token"))
  | None =>
      match kw_get kw "token_id" with
      | Some (VStr t) => inr (Some t)
      | _ => inr None
      end
  end.

Definition not_null : Exn := IntegrityError "null value in a column that is not null".

(** The keywords [GeoViewRole] accepts: its fields [token], [role] and
    [geo_view] with their columns. *)
Definition GeoViewRole_fields : list string :=
  ["id"; "token"; "token_id"; "role"; "geo_view"; "geo_view_id"]%string.

(** The keywords [DataLayerRole] accepts: [token], [role] and [layer]. *)
Definition DataLayerRole_fields : list string :=
  ["id"; "token"; "token_id"; "role"; "layer"; "layer_id"]%string.

(** [GeoViewRole(...).save()] on the keyword arguments [kw]. *)
Definition GeoViewRole_create (kw : kwargs) (st : Store) : Exn + Store :=
  match kw_invalid GeoViewRole_fields kw with
  | Some n => inl (invalid_keyword n)
  | None =>
      match kw_token "GeoViewRole" kw with
      | inl e => inl e
      | inr token =>
          match token, kw_get kw "role", kw_get kw "geo_view_id" with
          | Some t, Some (VRole r), Some (VStr g) =>
              inr (set_geoviewroles st (geoviewroles st ++ [mkGeoViewRole t r g]))
          | _, _, _ => inl not_null
          end
      end
  end.

(** [DataLayerRole(...).save()] on the keyword arguments [kw]. *)
Definition DataLayerRole_create (kw : kwargs) (st : Store) : Exn + Store :=
  match kw_invalid DataLayerRole_fields kw with
  | Some n => inl (invalid_keyword n)
  | None =>
      match kw_token "DataLayerRole" kw with
      | inl e => inl e
      | inr token =>
          match token, kw_get kw "role", kw_get kw "layer_id" with
          | Some t, Some (VRole r), Some (VStr l) =>
              inr (set_datalayerroles st (datalayerroles st ++ [mkDataLayerRole t r l]))
          | _, _, _ => inl not_null
          end
      end
  end.

(** ** The layer role handlers of [views.py] *)

Section Views.

(** [DataOperator(token_key).has_layer_permissions(layer_uid, role)], the
    guard every handler asks first; [rapid/select.py] is not part of the
    sources, so the handlers take it as a parameter. *)
Variable has_layer_permissions : Store -> option string -> string -> Role -> bool.

Definition addLayerOwner (st : Store) (token_key : option string)
           (layer_uid token_uid : string) : Outcome * Store :=
  if has_layer_permissions st token_key layer_uid OWNER then
    match GeoViewRole_create
            [("layer_id", VStr layer_uid); ("role", VRole OWNER); ("token_id", VStr token_uid)]%string
            st with
    | inl e => (Raised e, st)
    | inr st' => (JsonError "Added access for token.", st')
    end
  else (JsonError "Not permitted to edit layer.", st).

Definition addLayerEditor (st : Store) (token_key : option string)
           (layer_uid token_uid : string) : Outcome * Store :=
  if has_layer_permissions st token_key layer_uid OWNER then
    match DataLayerRole_create
            [("layer_id", VStr layer_uid); ("role", VRole EDITOR); ("token_id", VStr token_uid)]%string
            st with
    | inl e => (Raised e, st)
    | inr st' => (JsonError "Added access for token.", st')
    end
  else (JsonError "Not permitted to edit layer.", st).

Definition addLayerViewer (st : Store) (token_key : option string)
           (layer_uid token_uid : string) : Outcome * Store :=
  if has_layer_permissions st token_key layer_uid OWNER then
    match DataLayerRole_create
            [("layer_id", VStr layer_uid); ("role", VRole VIEWER); ("token_id", VStr token_uid)]%string
            st with
    | inl e => (Raised e, st)
    | inr st' => (JsonError "Added access for token.", st')
    end
  else (JsonError "Not permitted to edit layer.", st).

(** [DataLayerRole.objects.filter(layer_id=.., role=.., token_id=..).delete()]. *)
Definition DataLayerRole_delete (st : Store) (layer_uid : string) (role : Role)
           (token_uid : string) : Store :=
  set_datalayerroles st
    (filter (fun r => negb ((dlr_layer_id r =? layer_uid)%string
                            && role_eqb (dlr_role r) role
                            && (dlr_token_id r =? token_uid)%string))
            (datalayerroles st)).

Definition removeLayerOwner (st : Store) (token_key : option string)
           (layer_uid token_uid : string) : Outcome * Store :=
  if has_layer_permissions st token_key layer_uid OWNER then
    (JsonError "Removed access for token.", DataLayerRole_delete st layer_uid OWNER token_uid)
  else (JsonError "Not permitted to edit Layer.", st).

Definition removeLayerEditor (st : Store) (token_key : option string)
           (layer_uid token_uid : string) : Outcome * Store :=
  if has_layer_permissions st token_key layer_uid OWNER then
    (JsonError "Removed access for token.", DataLayerRole_delete st layer_uid EDITOR token_uid)
  else (JsonError "Not permitted to edit Layer.", st).

Definition removeLayerViewer (st : Store) (token_key : option string)
           (layer_uid token_uid : string) : Outcome * Store :=
  if has_layer_permissions st token_key layer_uid OWNER then
    (JsonError "Removed access for token.", DataLayerRole_delete st layer_uid VIEWER token_uid)
  else (JsonError "Not permitted to edit Layer.", st).

(** The grant and the revoke handler of each role. *)
Definition addLayer (r : Role) :=
  match r with
  | OWNER => addLayerOwner
  | EDITOR => addLayerEditor
  | VIEWER => addLayerViewer
  end.

Definition removeLayer (r : Role) :=
  match r with
  | OWNER => removeLayerOwner
  | EDITOR => removeLayerEditor
  | VIEWER => removeLayerViewer
  end.

End Views.

(** The rows a revoke of ([token_uid], [layer_uid], [role]) is aimed at. *)
Definition matches (layer_uid : string) (role : Role) (token_uid : string)
           (b : DataLayerRole) : Prop :=
  dlr_layer_id b = layer_uid /\ dlr_role b = role /\ dlr_token_id b = token_uid.

(** ** [DataOperator], as far as the handlers call it *)

(** Modelled from the spec: [DataOperator.get_apitoken] ([rapid/select.py] is
    not part of the sources), the credential whose secret key the caller
    presented; nothing when no credential carries that key. *)
Definition get_apitoken (st : Store) (token_key : option string) : option ApiToken :=
  match token_key with
  | None => None
  | Some k => find (fun t => (tk_key t =? k)%string) (apitokens st)
  end.

(** Modelled from the spec: [DataOperator.create_layer] ([rapid/select.py] is
    not part of the sources), which allocates a new Layer; [uid] is the
    identifier the generator draws, a missing descriptor is stored empty and
    a missing flag as the column default. *)
Definition create_layer (st : Store) (uid : string) (descriptor : option string)
           (is_public : option bool) (properties : option string) : string * Store :=
  (uid,
   set_datalayers st
     (datalayers st ++
        [mkDataLayer uid
                     (match descriptor with Some d => d | None => EmptyString end)
                     properties
                     (match is_public with Some b => b | None => false end)
                     None])).

(** Modelled from the spec: the resolver of section 4.1 for a Layer
    ([DataOperator.has_layer_permissions], [rapid/select.py] is not part of
    the sources): the public flag answers Viewer, no credential is refused,
    otherwise the greatest bound role decides; it checks no existence. *)
Definition has_permission (st : Store) (credential : option string) (resource_id : string)
           (required_role : Role) : bool :=
  if existsb (fun l => (dl_uid l =? resource_id)%string && dl_is_public l) (datalayers st)
     && role_eqb required_role VIEWER
  then true
  else match credential with
       | None => false
       | Some k => has_permission_spec st k resource_id required_role
       end.

(** ** The POST branch of [views.layers] *)

(** The decoded request body: the keys [des], [public] and [props]. *)
Record LayersBody : Type := mkLayersBody {
  body_des : option string;
  body_public : option Json;
  body_props : option string
}.

(** [jsonDict['public'] == "False" or jsonDict['public'] == False]; Python
    also finds the number zero equal to [False]. *)
Definition public_is_false (j : Json) : bool :=
  match j with
  | JStr s => (s =? "False")%string
  | JBool b => negb b
  | JNum n => n =? 0
  | JNull => false
  end.

Definition parse_public (body : LayersBody) : option bool :=
  match body_public body with
  | None => None
  | Some j => if public_is_false j then Some false else Some true
  end.

(** [DataLayerRole(layer_id=uid, token=data.get_apitoken(), role=Role.OWNER)]
    followed by [role.save()]. *)
Definition save_owner_role (st : Store) (token_key : option string) (uid : string)
  : Exn + Store :=
  DataLayerRole_create
    [("layer_id", VStr uid); ("token", VToken (get_apitoken st token_key));
     ("role", VRole OWNER)]%string
    st.

Definition layers_POST (st : Store) (token_key : option string) (new_uid : string)
           (body : LayersBody) : Outcome * Store :=
  let descriptor := body_des body in
  let is_public := parse_public body in
  let properties := body_props body in
  let (uid, st1) := create_layer st new_uid descriptor is_public properties in
  match save_owner_role st1 token_key uid with
  | inl e => (Raised e, st1)
  | inr st2 => (ToJson uid, st2)
  end.

(** The same handler one database write at a time: every write is committed
    when it is made, so the store of each configuration is what another
    request reads at that moment. *)
Inductive LayersPost : Type :=
| Parsed (descriptor : option string) (is_public : option bool) (properties : option string)
| Created (uid : string)
| Returned (o : Outcome).

Definition layers_POST_step (token_key : option string) (new_uid : string)
           (c : LayersPost * Store) : option (LayersPost * Store) :=
  match c with
  | (Parsed descriptor is_public properties, st) =>
      let (uid, st1) := create_layer st new_uid descriptor is_public properties in
      Some (Created uid, st1)
  | (Created uid, st1) =>
      match save_owner_role st1 token_key uid with
      | inl e => Some (Returned (Raised e), st1)
      | inr st2 => Some (Returned (ToJson uid), st2)
      end
  | (Returned _, _) => None
  end.

Definition layers_POST_init (st : Store) (body : LayersBody) : LayersPost * Store :=
  (Parsed (body_des body) (parse_public body) (body_props body), st).

(** The configurations the handler passes through. *)
Inductive layers_POST_reaches (token_key : option string) (new_uid : string)
  : LayersPost * Store -> LayersPost * Store -> Prop :=
| reaches_here : forall c, layers_POST_reaches token_key new_uid c c
| reaches_step : forall c c' c'',
    layers_POST_step token_key new_uid c = Some c' ->
    layers_POST_reaches token_key new_uid c' c'' ->
    layers_POST_reaches token_key new_uid c c''.

(** The layer has an Owner binding. *)
Definition has_owner (st : Store) (l : DataLayer) : bool :=
  existsb (fun r => (dlr_layer_id r =? dl_uid l)%string && role_eqb (dlr_role r) OWNER)
          (datalayerroles st).

Definition every_layer_owned (st : Store) : bool :=
  forallb (has_owner st) (datalayers st).

(** Atomic creation as the specification words it: whatever the request,
    no configuration the handler passes through shows a layer without an
    Owner binding, provided none was shown before. *)
Definition layers_POST_atomic : Prop :=
  forall (st : Store) (token_key : option string) (new_uid : string) (body : LayersBody)
         (c : LayersPost * Store),
    every_layer_owned st = true ->
    layers_POST_reaches token_key new_uid (layers_POST_init st body) c ->
    every_layer_owned (snd c) = true.

(** ** The content-addressed feature index *)

Inductive Failure : Type :=
| NotFound
| NotPermitted
| DuplicateContent
| ValidationError
| IntegrityFailure.

Definition hash_exists (st : Store) (h : string) : bool :=
  existsb (fun f => match ft_hash f with
                    | Some h' => (h' =? h)%string
                    | None => false
                    end)
          (features st).

(** The non-null values of the [hash] column, which is declared unique. *)
Definition hashes (st : Store) : list string :=
  flat_map (fun f => match ft_hash f with Some h => [h] | None => [] end) (features st).

Definition hash_unique (st : Store) : Prop := NoDup (hashes st).

Section Index.

(** The hash capability over geometry and properties, and the bounding box
    of a geometry: both external. *)
Variable content_hash : Geometry -> option string -> string.
Variable bounding_box : Geometry -> Geometry.

(** Modelled from the spec: [create_feature] of section 4.3
    ([DataOperator.create_feature], [rapid/select.py] is not part of the
    sources): Editor on the Layer is required, the content hash is computed,
    an existing hash fails with [DuplicateContent], otherwise the Feature is
    inserted under the Layer, stamped with the time [now]. *)
Definition create_feature (st : Store) (new_uid : string) (now : Z)
           (geometry : Geometry) (layer_id : string) (properties : option string)
           (credential : option string) : (Failure + string) * Store :=
  if negb (has_permission st credential layer_id EDITOR) then (inl NotPermitted, st)
  else
    let h := content_hash geometry properties in
    if hash_exists st h then (inl DuplicateContent, st)
    else
      (inr new_uid,
       set_features st
         (features st ++
            [mkFeature new_uid (Some geometry) (Some (bounding_box geometry)) properties
                       (Some now) (Some layer_id) (Some h) (Some now)])).

End Index.

(** ** The projection as the specification words it *)

(** The Features owned by the layer whose geometry intersects the window. *)
Definition intersecting_features (st : Store) (layer_uid : string) (window : Geometry)
  : list Feature :=
  filter (fun f => match ft_layer f, ft_geom f with
                   | Some l, Some g => (l =? layer_uid)%string && intersects g window
                   | _, _ => false
                   end)
         (features st).

(** The layer uid is related to the view in the join table. *)
Definition associated (st : Store) (self : GeoView) (layer_uid : string) : Prop :=
  In (gv_uid self, layer_uid) (geoview_layers st).

(** Every view has a projection that names each related layer passing the
    Viewer check: the specification's words for the projection. *)
Definition projection_lists_permitted : Prop :=
  forall (st : Store) (self : GeoView),
  exists entries,
    get_features st self = inr entries
    /\ forall l, In l (layers_all st self) ->
                 has_permissions st l (gv_token_key self) VIEWER = true ->
                 In (dl_uid l) (map entry_uid entries).

(** Whatever order the database enumerates the related layers in, the
    entries name the permitted layers in the order of their insertion into
    the join table: the specification's words for the order. *)
Definition projection_in_insertion_order : Prop :=
  forall (st : Store) (self : GeoView) (layers : list DataLayer) (entries : list Entry),
    Permutation layers (layers_all st self) ->
    get_features_loop st self layers [] = inr entries ->
    map entry_uid entries
    = map dl_uid (filter (fun l => has_permissions st l (gv_token_key self) VIEWER)
                         (layers_all st self)).

(** ** Database constraints *)

(** [uid] is the primary key of layers and of features. *)
Definition layer_pk (st : Store) : Prop := NoDup (map dl_uid (datalayers st)).

Definition feature_pk (st : Store) : Prop := NoDup (map ft_uid (features st)).

(** A pair is related at most once in the join table. *)
Definition join_unique (st : Store) : Prop := NoDup (geoview_layers st).

End Rapid.

Arguments apitokens {Geometry} _.
Arguments datalayers {Geometry} _.
Arguments geoviews {Geometry} _.
Arguments geoview_layers {Geometry} _.
Arguments features {Geometry} _.
Arguments geoviewroles {Geometry} _.
Arguments datalayerroles {Geometry} _.
Arguments gv_uid {Geometry} _.
Arguments gv_geom {Geometry} _.
Arguments gv_token_key {Geometry} _.
Arguments ft_uid {Geometry} _.
Arguments ft_geom {Geometry} _.
Arguments ft_layer {Geometry} _.
Arguments ft_hash {Geometry} _.
Arguments set_datalayerroles {Geometry} _ _.
Arguments set_geoviewroles {Geometry} _ _.
Arguments set_datalayers {Geometry} _ _.
Arguments set_geoview_layers {Geometry} _ _.
Arguments set_features {Geometry} _ _.
Arguments token__key {Geometry} _ _ _.
Arguments DataLayerRole_filter {Geometry} _ _ _ _.
Arguments has_permissions {Geometry} _ _ _ _.
Arguments bound_roles {Geometry} _ _ _.
Arguments has_permission_spec {Geometry} _ _ _ _.
Arguments holds {Geometry} _ _ _ _.
Arguments layers_all {Geometry} _ _.
Arguments add_layer {Geometry} _ _ _.
Arguments remove_layer {Geometry} _ _ _.
Arguments feature_set {Geometry} _ _.
Arguments filter_geom__intersects {Geometry} _ _ _.
Arguments get_features_loop {Geometry} _ _ _ _ _.
Arguments get_features {Geometry} _ _ _.
Arguments GeoViewRole_create {Geometry} _ _.
Arguments DataLayerRole_create {Geometry} _ _.
Arguments DataLayerRole_delete {Geometry} _ _ _ _.
Arguments addLayerOwner {Geometry} _ _ _ _ _.
Arguments addLayerEditor {Geometry} _ _ _ _ _.
Arguments addLayerViewer {Geometry} _ _ _ _ _.
Arguments removeLayerOwner {Geometry} _ _ _ _ _.
Arguments removeLayerEditor {Geometry} _ _ _ _ _.
Arguments removeLayerViewer {Geometry} _ _ _ _ _.
Arguments addLayer {Geometry} _ _ _ _ _ _.
Arguments removeLayer {Geometry} _ _ _ _ _ _.
Arguments get_apitoken {Geometry} _ _.
Arguments create_layer {Geometry} _ _ _ _ _.
Arguments has_permission {Geometry} _ _ _ _.
Arguments save_owner_role {Geometry} _ _ _.
Arguments layers_POST {Geometry} _ _ _ _.
Arguments layers_POST_step {Geometry} _ _ _.
Arguments layers_POST_init {Geometry} _ _.
Arguments layers_POST_reaches {Geometry} _ _ _ _.
Arguments has_owner {Geometry} _ _.
Arguments every_layer_owned {Geometry} _.
Arguments layers_POST_atomic Geometry : clear implicits.
Arguments hash_exists {Geometry} _ _.
Arguments hashes {Geometry} _.
Arguments hash_unique {Geometry} _.
Arguments create_feature {Geometry} _ _ _ _ _ _ _ _ _.
Arguments intersecting_features {Geometry} _ _ _ _.
Arguments projection_lists_permitted Geometry intersects : clear implicits.
Arguments projection_in_insertion_order Geometry intersects : clear implicits.
Arguments associated {Geometry} _ _ _.
Arguments layer_pk {Geometry} _.
Arguments feature_pk {Geometry} _.
Arguments join_unique {Geometry} _.

(** * Further parts of [models.py] and [views.py] *)

(** ** Python dictionaries with string keys

    A dictionary is the list of its items, every key once. *)

Inductive PyExn : Type :=
| KeyError (key : string)
| AttributeError (msg : string)
| UnboundLocalError (name : string)
| IndexTypeError
| Propagated (e : Exn).

Fixpoint dict_get {V : Type} (d : list (string * V)) (key : string) : option V :=
  match d with
  | [] => None
  | (k, v) :: rest => if (k =? key)%string then Some v else dict_get rest key
  end.

(** [d[key] = v]. *)
Fixpoint dict_set {V : Type} (d : list (string * V)) (key : string) (v : V)
  : list (string * V) :=
  match d with
  | [] => [(key, v)]
  | (k, x) :: rest =>
      if (k =? key)%string then (k, v) :: rest else (k, x) :: dict_set rest key v
  end.

(** [d.pop(key, None)], the popped value dropped. *)
Definition dict_pop {V : Type} (d : list (string * V)) (key : string) : list (string * V) :=
  filter (fun item => negb (fst item =? key)%string) d.

(** [del d[key]]. *)
Definition dict_del {V : Type} (d : list (string * V)) (key : string)
  : PyExn + list (string * V) :=
  match dict_get d key with
  | Some _ => inr (dict_pop d key)
  | None => inl (KeyError key)
  end.

(** Truthiness of a [NullBooleanField]: only [True]. *)
Definition null_bool (b : option bool) : bool :=
  match b with
  | Some true => true
  | _ => false
  end.

(** ** [views.get_token_key] *)

(** A request as the handlers read it: [request.GET] and [request.POST]. *)
Record Request : Type := mkRequest {
  GET : list (string * string);
  POST : list (string * string)
}.

Definition get_token_key (request : Request) : option string :=
  let token_key := None in
  if truthy (dict_get (GET request) "token") then dict_get (GET request) "token"
  else if truthy (dict_get (POST request) "token") then dict_get (POST request) "token"
  else token_key.

(** ** JSON bodies and the POST branch of [views.features] *)

#[warnings="-register-all"] Inductive JValue : Type :=
| JVNull
| JVBool (b : bool)
| JVNum (n : Z)
| JVStr (s : string)
| JVList (items : list JValue)
| JVObject (members : list (string * JValue)).

Definition jv_truthy (v : JValue) : bool :=
  match v with
  | JVNull => false
  | JVBool b => b
  | JVNum n => negb (n =? 0)
  | JVStr s => negb (s =? "")%string
  | JVList items => match items with [] => false | _ => true end
  | JVObject members => match members with [] => false | _ => true end
  end.

(** [v[key]] for a string key: only an object can be indexed by it. *)
Definition subscript (v : JValue) (key : string) : PyExn + JValue :=
  match v with
  | JVObject members =>
      match dict_get members key with
      | Some x => inr x
      | None => inl (KeyError key)
      end
  | _ => inl IndexTypeError
  end.

(** Where the POST branch of [views.features] ends: at the call of
    [data.create_feature], at a response of its own, or at an exception. *)
Inductive FeaturesEnd : Type :=
| CreateFeature (geom : JValue) (layer : DataLayer) (properties : JValue)
| Answer (message : string)
| Fails (e : PyExn).

(** A local variable read: unbound when no assignment ran. *)
Definition local {A : Type} (name : string) (x : option A) : PyExn + A :=
  match x with
  | Some a => inr a
  | None => inl (UnboundLocalError name)
  end.

Section Features.

Variable Geometry : Type.

(** [DataOperator(token_key).has_layer_permissions] and
    [DataOperator.get_layer], both outside the sources: parameters. *)
Variable has_layer_permissions : Store Geometry -> option string -> string -> Role -> bool.
Variable get_layer : Store Geometry -> JValue -> PyExn + DataLayer.

(** The first block: [if jsonDict['layer']: layer = data.get_layer(layer)]
    and the Editor check, giving the local [layer] or the handler's end. *)
Definition features_layer (st : Store Geometry) (token_key : option string)
           (jsonDict : JValue) : FeaturesEnd + option DataLayer :=
  match subscript jsonDict "layer" with
  | inl e => inl (Fails e)
  | inr v =>
      if jv_truthy v then
        match get_layer st v with
        | inl e => inl (Fails e)
        | inr layer =>
            if negb (has_layer_permissions st token_key (dl_uid layer) EDITOR)
            then inl (Answer "No editing permissions on Layer.")
            else inr (Some layer)
        end
      else inr None
  end.

(** The second block: [geom = content['geom']] when both are truthy. *)
Definition features_geom (jsonDict : JValue) : PyExn + option JValue :=
  match subscript jsonDict "content" with
  | inl e => inl e
  | inr content =>
      if jv_truthy content then
        match subscript content "geom" with
        | inl e => inl e
        | inr g => if jv_truthy g then inr (Some g) else inr None
        end
      else inr None
  end.

(** The third block: [properties = jsonDict['props']] when truthy. *)
Definition features_props (jsonDict : JValue) : PyExn + option JValue :=
  match subscript jsonDict "props" with
  | inl e => inl e
  | inr p => if jv_truthy p then inr (Some p) else inr None
  end.

(** [views.features]; the table of the store already has the plain name. *)
Definition views_features (st : Store Geometry) (token_key : option string)
           (method : string) (jsonDict : JValue) : FeaturesEnd :=
  if (method =? "POST")%string then
    match features_layer st token_key jsonDict with
    | inl out => out
    | inr layer =>
        match features_geom jsonDict with
        | inl e => Fails e
        | inr geom =>
            match features_props jsonDict with
            | inl e => Fails e
            | inr properties =>
                match local "geom" geom, local "layer" layer,
                      local "properties" properties with
                | inl e, _, _ => Fails e
                | _, inl e, _ => Fails e
                | _, _, inl e => Fails e
                | inr g, inr l, inr p => CreateFeature g l p
                end
            end
        end
    end
  else Answer "Must POST a feature to this endpoint".

End Features.

(** ** [views.handle_uploaded_file] *)

(** The name of an uploaded file: a sequence of code points. *)
Definition Text : Type := list N.

Definition text_of_string (s : string) : Text :=
  map Ascii.N_of_ascii (list_ascii_of_string s).

Definition text_eqb (a b : Text) : bool :=
  if list_eq_dec N.eq_dec a b then true else false.

(** [s[-n:]]: the last [n] characters, all of [s] when it is shorter. *)
Definition last_chars (n : nat) (s : Text) : Text :=
  skipn (List.length s - n) s.

(** [d[key]] on the form data. *)
Definition dict_item {V : Type} (d : list (string * V)) (key : string) : PyExn + V :=
  match dict_get d key with
  | Some v => inr v
  | None => inl (KeyError key)
  end.

Inductive ImporterCall : Type :=
| import_shapefile
| import_geojson_file.

(** What [is_public] holds after the [try]: [request['public']] or [False]. *)
Inductive PublicArg : Type :=
| PublicValue (s : string)
| PublicFalse.

Section Upload.

Variable Geometry : Type.

(** A run of the handler: the store it leaves, the importer calls it made,
    in order, and the exception that ended it, if any. *)
Record UploadRun : Type := mkUploadRun {
  run_store : Store Geometry;
  run_imports : list ImporterCall;
  run_raised : option PyExn
}.

(** Outside the sources, hence parameters: the upper-case mapping of a code
    point, which [upper()] applies character by character; the writing of
    the chunks to the file path, with the exception it raises, if any; the
    constructors of [DataOperator] and of [Importer], likewise;
    [data.create_layer]; and the two imports. *)
Variable upper_char : N -> N.
Variable write_chunks : Text -> option PyExn.
Variable new_DataOperator : string -> option PyExn.
Variable new_Importer : string -> option PyExn.
Variable data_create_layer :
  Store Geometry -> string -> string -> PublicArg -> option string
  -> PyExn + (string * Store Geometry).
Variable importer_import_shapefile :
  Store Geometry -> string -> Text -> string -> PyExn + Store Geometry.
Variable importer_import_geojson_file :
  Store Geometry -> string -> Text -> string -> PyExn + Store Geometry.

(** [s.upper()]. *)
Definition upper (s : Text) : Text := map upper_char s.

Definition handle_uploaded_file (st : Store Geometry) (name : Text)
           (request : list (string * string)) : UploadRun :=
  let ext := last_chars 3 name in
  match write_chunks name with
  | Some e => mkUploadRun st [] (Some e)
  | None =>
  match dict_item request "token" with
  | inl e => mkUploadRun st [] (Some e)
  | inr token_key =>
  match new_DataOperator token_key with
  | Some e => mkUploadRun st [] (Some e)
  | None =>
  match dict_item request "des" with
  | inl e => mkUploadRun st [] (Some e)
  | inr des =>
  let descriptor := if negb (des =? "")%string then Some des else None in
  let is_public :=
    match dict_get request "public" with
    | Some p => PublicValue p
    | None => PublicFalse
    end in
  let properties := dict_get request "props" in
  match local "descriptor" descriptor with
  | inl e => mkUploadRun st [] (Some e)
  | inr d =>
  match data_create_layer st token_key d is_public properties with
  | inl e => mkUploadRun st [] (Some e)
  | inr (layer_uid, st1) =>
  match save_owner_role st1 (Some token_key) layer_uid with
  | inl e => mkUploadRun st1 [] (Some (Propagated e))
  | inr st2 =>
  match new_Importer token_key with
  | Some e => mkUploadRun st2 [] (Some e)
  | None =>
  let zip :=
    if text_eqb (upper ext) (text_of_string "ZIP") then
      match importer_import_shapefile st2 token_key name layer_uid with
      | inl e => inl (mkUploadRun st2 [import_shapefile] (Some e))
      | inr st3 => inr (st3, [import_shapefile])
      end
    else inr (st2, []) in
  match zip with
  | inl run => run
  | inr (st3, calls) =>
      if text_eqb (upper ext) (text_of_string "JSON") then
        match importer_import_geojson_file st3 token_key name layer_uid with
        | inl e => mkUploadRun st3 (calls ++ [import_geojson_file]) (Some e)
        | inr st4 => mkUploadRun st4 (calls ++ [import_geojson_file]) None
        end
      else mkUploadRun st3 calls None
  end end end end end end end end end.

End Upload.

(** ** The GeoView role handlers of [views.py] *)

Section GeoViewHandlers.

Variable Geometry : Type.

(** [DataOperator(token_key).has_geoview_permissions(geo_uid, role)]:
    outside the sources, a parameter. *)
Variable has_geoview_permissions : Store Geometry -> option string -> string -> Role -> bool.

Definition addGeoView (r : Role) (st : Store Geometry) (token_key : option string)
           (geo_uid token_uid : string) : Outcome * Store Geometry :=
  if has_geoview_permissions st token_key geo_uid OWNER then
    match GeoViewRole_create
            [("geo_view_id", VStr geo_uid); ("role", VRole r); ("token_id", VStr token_uid)]%string
            st with
    | inl e => (Raised e, st)
    | inr st' => (JsonError "Added access for token.", st')
    end
  else (JsonError "Not permitted to edit GeoView.", st).

Definition addGeoViewOwner := addGeoView OWNER.
Definition addGeoViewEditor := addGeoView EDITOR.
Definition addGeoViewViewer := addGeoView VIEWER.

(** [GeoViewRole.objects.filter(geo_view_id=.., role=.., token_id=..).delete()]. *)
Definition GeoViewRole_delete (st : Store Geometry) (geo_uid : string) (role : Role)
           (token_uid : string) : Store Geometry :=
  set_geoviewroles st
    (filter (fun b => negb ((gvr_geo_view_id b =? geo_uid)%string
                            && role_eqb (gvr_role b) role
                            && (gvr_token_id b =? token_uid)%string))
            (geoviewroles st)).

Definition removeGeoView (r : Role) (st : Store Geometry) (token_key : option string)
           (geo_uid token_uid : string) : Outcome * Store Geometry :=
  if has_geoview_permissions st token_key geo_uid OWNER then
    (JsonError "Removed access for token.", GeoViewRole_delete st geo_uid r token_uid)
  else (JsonError "Not permitted to edit GeoView.", st).

Definition removeGeoViewOwner := removeGeoView OWNER.
Definition removeGeoViewEditor := removeGeoView EDITOR.
Definition removeGeoViewViewer := removeGeoView VIEWER.

End GeoViewHandlers.

(** ** [__getstate__] of [GeoView] and of [DataLayer] *)

Section Serialization.

Variable Geometry : Type.
Variable intersects : Geometry -> Geometry -> bool.

(** The values of an instance dictionary and of the state made from it. *)
Inductive PyValue : Type :=
| PyStr (s : string)
| PyText (s : option string)
| PyBool (b : bool)
| PyNullBool (b : option bool)
| PyGeom (g : option Geometry)
| PyGeoJson (g : Geometry)
| PyEntries (entries : list Entry)
| PyUids (uids : list string)
| PyModelState.

(** [self.__dict__] of a [GeoView]: its columns and [_state]. *)
Definition GeoView_dict (self : GeoView Geometry) : list (string * PyValue) :=
  [("uid", PyStr (gv_uid self));
   ("descriptor", PyStr (gv_descriptor Geometry self));
   ("geom", PyGeom (gv_geom self));
   ("bbox", PyGeom (gv_bbox Geometry self));
   ("properties", PyText (gv_properties Geometry self));
   ("is_public", PyBool (gv_is_public Geometry self));
   ("include_layers", PyNullBool (gv_include_layers Geometry self));
   ("include_geom", PyNullBool (gv_include_geom Geometry self));
   ("token_key", PyText (gv_token_key self));
   ("_state", PyModelState)]%string.

Definition then_del (state : PyExn + list (string * PyValue)) (key : string)
  : PyExn + list (string * PyValue) :=
  match state with
  | inl e => inl e
  | inr d => dict_del d key
  end.

(** [GeoView.__getstate__]; [PyGeoJson g] stands for the dictionary of the
    type and the coordinates of [g]. *)
Definition GeoView_getstate (st : Store Geometry) (self : GeoView Geometry)
  : PyExn + list (string * PyValue) :=
  let state := GeoView_dict self in
  let state := dict_pop state "layers" in
  match gv_geom self with
  | None => inl (AttributeError "'NoneType' object has no attribute 'geom_type'")
  | Some g =>
      let state := dict_set state "geom" (PyGeoJson g) in
      match get_features intersects st self with
      | inl e => inl (Propagated e)
      | inr entries =>
          let state := dict_set state "layers" (PyEntries entries) in
          let state :=
            if null_bool (gv_include_layers Geometry self) then
              match get_features intersects st self with
              | inl e => inl (Propagated e)
              | inr entries' => inr (dict_set state "layers" (PyEntries entries'))
              end
            else inr state in
          let state :=
            if negb (null_bool (gv_include_geom Geometry self))
            then then_del state "geom" else state in
          then_del (then_del (then_del (then_del state "_state") "token_key")
                             "include_layers")
                   "include_geom"
      end
  end.

(** The view with its [include_layers] flag set to [b]. *)
Definition with_include_layers (self : GeoView Geometry) (b : option bool)
  : GeoView Geometry :=
  mkGeoView Geometry (gv_uid self) (gv_descriptor Geometry self) (gv_geom self)
            (gv_bbox Geometry self) (gv_properties Geometry self)
            (gv_is_public Geometry self) b (gv_include_geom Geometry self)
            (gv_token_key self).

(** [self.__dict__] of a [DataLayer]. *)
Definition DataLayer_dict (self : DataLayer) : list (string * PyValue) :=
  [("uid", PyStr (dl_uid self));
   ("descriptor", PyStr (dl_descriptor self));
   ("properties", PyText (dl_properties self));
   ("is_public", PyBool (dl_is_public self));
   ("include_features", PyNullBool (dl_include_features self));
   ("_state", PyModelState)]%string.

(** [DataLayer.__getstate__]. *)
Definition DataLayer_getstate (st : Store Geometry) (self : DataLayer)
  : PyExn + list (string * PyValue) :=
  let state := DataLayer_dict self in
  let state :=
    if null_bool (dl_include_features self)
    then dict_set state "features" (PyUids (map ft_uid (feature_set st self)))
    else state in
  then_del (dict_del state "_state") "include_features".

End Serialization.

Arguments views_features {Geometry} _ _ _ _ _ _.
Arguments run_store {Geometry} _.
Arguments run_imports {Geometry} _.
Arguments run_raised {Geometry} _.
Arguments handle_uploaded_file {Geometry} _ _ _ _ _ _ _ _ _ _.
Arguments features_layer {Geometry} _ _ _ _ _.
Arguments addGeoView {Geometry} _ _ _ _ _ _.
Arguments addGeoViewOwner {Geometry} _ _ _ _ _.
Arguments addGeoViewEditor {Geometry} _ _ _ _ _.
Arguments addGeoViewViewer {Geometry} _ _ _ _ _.
Arguments GeoViewRole_delete {Geometry} _ _ _ _.
Arguments removeGeoView {Geometry} _ _ _ _ _ _.
Arguments removeGeoViewOwner {Geometry} _ _ _ _ _.
Arguments removeGeoViewEditor {Geometry} _ _ _ _ _.
Arguments removeGeoViewViewer {Geometry} _ _ _ _ _.
Arguments PyStr {Geometry} _.
Arguments PyText {Geometry} _.
Arguments PyBool {Geometry} _.
Arguments PyNullBool {Geometry} _.
Arguments PyGeom {Geometry} _.
Arguments PyGeoJson {Geometry} _.
Arguments PyEntries {Geometry} _.
Arguments PyUids {Geometry} _.
Arguments PyModelState {Geometry}.
Arguments GeoView_dict {Geometry} _.
Arguments GeoView_getstate {Geometry} _ _ _.
Arguments with_include_layers {Geometry} _ _.
Arguments DataLayer_dict {Geometry} _.
Arguments DataLayer_getstate {Geometry} _ _.
Arguments gv_include_layers {Geometry} _.
Arguments gv_include_geom {Geometry} _.

(** ** A concrete instance: boxes as geometries

    Axis-parallel boxes in half units, so that the unit square centred at the
    origin has integer corners. *)

Module Scenario.

Record Box : Type := mkBox { xmin : Z; ymin : Z; xmax : Z; ymax : Z }.

Definition box_intersects (a b : Box) : bool :=
  (xmin a <=? xmax b) && (xmin b <=? xmax a) && (ymin a <=? ymax b) && (ymin b <=? ymax a).

Definition point (x y : Z) : Box := mkBox (2 * x) (2 * y) (2 * x) (2 * y).

Definition unit_square : Box := mkBox (-1) (-1) 1 1.

Definition T1 : ApiToken := mkApiToken "t1" "key1" "first" None.
Definition T2 : ApiToken := mkApiToken "t2" "key2" "second" None.

Definition L1 : DataLayer := mkDataLayer "l1" "private layer" None false None.
Definition L2 : DataLayer := mkDataLayer "l2" "hidden layer" None false None.
Definition L3 : DataLayer := mkDataLayer "l3" "public layer" None true None.

Definition V : GeoView Box :=
  mkGeoView Box "v" "window" (Some unit_square) None None false None None (Some "key1"%string).

Definition F1 : Feature Box :=
  mkFeature Box "f1" (Some (point 0 0)) None None None (Some "l1"%string) (Some "h1"%string) None.
Definition F2 : Feature Box :=
  mkFeature Box "f2" (Some (point 100 100)) None None None (Some "l1"%string) (Some "h2"%string) None.
Definition F3 : Feature Box :=
  mkFeature Box "f3" (Some (point 0 0)) None None None (Some "l2"%string) (Some "h3"%string) None.

(** T1 owns L1 and L2 has no binding at all; V shows L1, L2 and L3. *)
Definition db : Store Box :=
  mkStore Box [T1; T2] [L1; L2; L3] [V]
          [("v", "l1"); ("v", "l2"); ("v", "l3")]%string
          [F1; F2; F3]
          []
          [mkDataLayerRole "t1" OWNER "l1"].

(** T2 is Owner and Viewer of L1 as well. *)
Definition db_two_roles : Store Box :=
  set_datalayerroles db
    [mkDataLayerRole "t1" OWNER "l1"; mkDataLayerRole "t2" OWNER "l1";
     mkDataLayerRole "t2" VIEWER "l1"].

(** T1 is Owner of L1 and T2 is Editor of L2. *)
Definition db_editors : Store Box :=
  set_datalayerroles db
    [mkDataLayerRole "t1" OWNER "l1"; mkDataLayerRole "t2" EDITOR "l2"].

(** A database with one credential and nothing else. *)
Definition db_empty : Store Box := mkStore Box [T1] [] [] [] [] [] [].

Definition body : LayersBody := mkLayersBody (Some "roads"%string) (Some (JBool false)) None.

Definition box_hash (g : Box) (properties : option string) : string :=
  match properties with
  | Some p => p
  | None => EmptyString
  end.

(** A view of the same layers without window geometry. *)
Definition V_no_window : GeoView Box :=
  mkGeoView Box "v" "no window" None None None false None None (Some "key1"%string).

(** The view read without any token. *)
Definition V_anonymous : GeoView Box :=
  mkGeoView Box "v" "window" (Some unit_square) None None false None None None.

(** A layer that is related to no view. *)
Definition L4 : DataLayer := mkDataLayer "l4" "loose layer" None false None.

(** T1 is Owner of the view as well. *)
Definition db_view : Store Box :=
  set_geoviewroles db [mkGeoViewRole "t1" OWNER "v"].

(** A guard for views: some binding of the key on the view is at least the
    role asked for. *)
Definition view_guard (st : Store Box) (token_key : option string) (geo_uid : string)
           (role : Role) : bool :=
  match token_key with
  | None => false
  | Some k =>
      existsb (fun b => token__key st (gvr_token_id b) k
                        && (gvr_geo_view_id b =? geo_uid)%string
                        && role_le role (gvr_role b))
              (geoviewroles st)
  end.

(** A layer lookup by the uid a JSON string carries. *)
Definition find_layer (st : Store Box) (v : JValue) : PyExn + DataLayer :=
  match v with
  | JVStr uid =>
      match find (fun l => (dl_uid l =? uid)%string) (datalayers st) with
      | Some l => inr l
      | None => inl (KeyError uid)
      end
  | _ => inl IndexTypeError
  end.

(** A feature posted to layer l1. *)
Definition feature_body : JValue :=
  JVObject [("layer", JVStr "l1");
            ("content", JVObject [("geom", JVStr "POINT (0 0)")]);
            ("props", JVStr "{}")]%string.

End Scenario.

(** * Properties *)

Lemma role_eqb_eq (a b : Role) : role_eqb a b = true <-> a = b.
Proof.
  unfold role_eqb; destruct a, b; simpl; split; intro H;
    first [reflexivity | discriminate].
Qed.

Lemma role_eqb_refl (a : Role) : role_eqb a a = true.
Proof. apply role_eqb_eq; reflexivity. Qed.

Lemma role_le_refl (a : Role) : role_le a a = true.
Proof. destruct a; reflexivity. Qed.

Lemma role_le_trans (a b c : Role) :
  role_le a b = true -> role_le b c = true -> role_le a c = true.
Proof. unfold role_le; intros H1 H2; apply Z.leb_le in H1, H2; apply Z.leb_le; lia. Qed.

Lemma role_max_ge_l (a b : Role) : role_le a (role_max a b) = true.
Proof. destruct a, b; reflexivity. Qed.

Lemma role_max_ge_r (a b : Role) : role_le b (role_max a b) = true.
Proof. destruct a, b; reflexivity. Qed.

Lemma role_max_cases (a b : Role) : role_max a b = a \/ role_max a b = b.
Proof. destruct a, b; simpl; auto. Qed.

(** The greatest role is one of the list and bounds every role of it. *)
Lemma max_role_some (rs : list Role) (m : Role) :
  max_role rs = Some m ->
  In m rs /\ forall r, In r rs -> role_le r m = true.
Proof.
  revert m; induction rs as [|a rs IH]; simpl; intros m H; [discriminate|].
  destruct (max_role rs) as [m'|] eqn:E.
  - injection H as <-. destruct (IH m' eq_refl) as [Hin Hle]. split.
    + destruct (role_max_cases a m') as [-> | ->]; auto.
    + intros r [<- | Hr]; [apply role_max_ge_l|].
      eapply role_le_trans; [apply Hle, Hr | apply role_max_ge_r].
  - injection H as <-. split; [now left|].
    intros r [<- | Hr]; [apply role_le_refl|].
    destruct rs; [contradiction | simpl in E; destruct (max_role rs); discriminate].
Qed.

Lemma max_role_none (rs : list Role) : max_role rs = None <-> rs = [].
Proof.
  destruct rs; simpl; split; intro H; try reflexivity; try discriminate.
  destruct (max_role rs); discriminate.
Qed.

Lemma count_pos {A : Type} (qs : list A) : (count qs >? 0) = true <-> exists x, In x qs.
Proof.
  unfold count; destruct qs as [|x qs]; simpl.
  - split; [discriminate | intros [? []]].
  - split; [intros _; exists x; now left | intros _; apply Z.gtb_lt; lia].
Qed.

Section Resolver.

Variable Geometry : Type.
Implicit Types (st : Store Geometry) (l : DataLayer) (k : string) (r : Role).

(** A filtered role queryset is non-empty exactly when the credential holds
    a binding of that role. *)
Lemma filter_count_holds st k layer_uid r :
  (count (DataLayerRole_filter st k layer_uid r) >? 0) = true <-> holds st k layer_uid r.
Proof.
  rewrite count_pos; unfold DataLayerRole_filter, holds; split.
  - intros [b Hb]. apply filter_In in Hb as [Hin Hc].
    apply andb_prop in Hc as [Hc Hr]; apply andb_prop in Hc as [Ht Hl].
    exists b; repeat split; auto.
    + now apply String.eqb_eq.
    + now apply role_eqb_eq.
  - intros (b & Hin & Ht & Hl & Hr). exists b. apply filter_In; split; [assumption|].
    rewrite Ht, <- Hl, <- Hr, String.eqb_refl, role_eqb_refl; reflexivity.
Qed.

Lemma filter_count_none st k layer_uid r :
  (count (DataLayerRole_filter st k layer_uid r) >? 0) = false <-> ~ holds st k layer_uid r.
Proof.
  rewrite <- filter_count_holds. destruct (count _ >? 0); split; intro H;
    try reflexivity; try discriminate; try (intro; discriminate).
  exfalso; now apply H.
Qed.

Lemma bound_roles_holds st k layer_uid r :
  In r (bound_roles st k layer_uid) <-> holds st k layer_uid r.
Proof.
  unfold bound_roles, holds; rewrite in_map_iff; split.
  - intros (b & Hr & Hb). apply filter_In in Hb as [Hin Hc].
    apply andb_prop in Hc as [Ht Hl]. exists b; repeat split; auto.
    now apply String.eqb_eq.
  - intros (b & Hin & Ht & Hl & Hr). exists b; split; [assumption|].
    apply filter_In; split; [assumption|].
    rewrite Ht, <- Hl, String.eqb_refl; reflexivity.
Qed.

Ltac role_count H :=
  match type of H with
  | (_ >? 0) = true => apply filter_count_holds in H
  | (_ >? 0) = false => apply filter_count_none in H
  end.

(** What a supplied credential gets on a layer whose public flag does not
    decide: some binding it holds is at least the required role. *)
Lemma has_permissions_private st l k r :
  dl_is_public l && role_eqb r VIEWER = false -> k <> EmptyString ->
  (has_permissions st l (Some k) r = true <->
   exists r', holds st k (dl_uid l) r' /\ role_le r r' = true).
Proof.
  intros Hpub Hk. unfold has_permissions. rewrite Hpub.
  assert (Hne : (k =? "")%string = false) by now apply String.eqb_neq.
  simpl truthy. rewrite Hne. simpl negb. cbv iota.
  destruct (count (DataLayerRole_filter st k (dl_uid l) OWNER) >? 0) eqn:Ho;
  destruct (count (DataLayerRole_filter st k (dl_uid l) EDITOR) >? 0) eqn:He;
  destruct (count (DataLayerRole_filter st k (dl_uid l) VIEWER) >? 0) eqn:Hv;
  role_count Ho; role_count He; role_count Hv;
  destruct r; simpl; split; intro H; try reflexivity; try discriminate;
  try (exists OWNER; split; [assumption | reflexivity]);
  try (exists EDITOR; split; [assumption | reflexivity]);
  try (exists VIEWER; split; [assumption | reflexivity]);
  destruct H as (r' & Hh & Hle); destruct r'; try discriminate; contradiction.
Qed.

Lemma has_permission_spec_holds st k layer_uid r :
  has_permission_spec st k layer_uid r = true <->
  exists r', holds st k layer_uid r' /\ role_le r r' = true.
Proof.
  unfold has_permission_spec.
  destruct (max_role (bound_roles st k layer_uid)) as [m|] eqn:E.
  - apply max_role_some in E as [Hin Hmax]. split.
    + intro H. exists m; split; [now apply bound_roles_holds | assumption].
    + intros (r' & Hh & Hle). eapply role_le_trans; [exact Hle|].
      apply Hmax. now apply bound_roles_holds.
  - apply max_role_none in E. split; [discriminate|].
    intros (r' & Hh & _). apply bound_roles_holds in Hh. rewrite E in Hh. contradiction.
Qed.

(** The method agrees with the specification's resolver. *)
Lemma has_permissions_refines st l k r :
  dl_is_public l && role_eqb r VIEWER = false -> k <> EmptyString ->
  has_permissions st l (Some k) r = has_permission_spec st k (dl_uid l) r.
Proof.
  intros Hpub Hk.
  destruct (has_permission_spec st k (dl_uid l) r) eqn:E.
  - apply has_permissions_private; [assumption | assumption |].
    now apply has_permission_spec_holds.
  - destruct (has_permissions st l (Some k) r) eqn:E'; [|reflexivity].
    apply has_permissions_private in E'; [|assumption|assumption].
    apply has_permission_spec_holds in E'. congruence.
Qed.

(** A binding at least as high as the required role is enough, whatever the
    public flag. *)
Lemma has_permissions_of_binding st l k r r' :
  k <> EmptyString -> holds st k (dl_uid l) r' -> role_le r r' = true ->
  has_permissions st l (Some k) r = true.
Proof.
  intros Hk Hh Hle.
  destruct (dl_is_public l && role_eqb r VIEWER) eqn:Hpub.
  - unfold has_permissions; rewrite Hpub; reflexivity.
  - apply has_permissions_private; [assumption | assumption |]. now exists r'.
Qed.

(** C5: on a layer that is not public, a supplied credential passes the
    check for a required role exactly when the greatest role among its
    bindings on that layer (none when it has no binding) is at least the
    required one in the order Viewer < Editor < Owner; so an Owner binding
    passes the Editor and the Viewer check and an Editor binding passes the
    Viewer check. *)
Theorem has_permissions_max_role st l k r :
  dl_is_public l = false -> k <> EmptyString ->
  (has_permissions st l (Some k) r = true <->
   exists m, max_role (bound_roles st k (dl_uid l)) = Some m /\ role_le r m = true)
  /\ (holds st k (dl_uid l) OWNER ->
      has_permissions st l (Some k) EDITOR = true /\ has_permissions st l (Some k) VIEWER = true)
  /\ (holds st k (dl_uid l) EDITOR -> has_permissions st l (Some k) VIEWER = true).
Proof.
  intros Hpub Hk. split; [|split].
  - rewrite has_permissions_refines by (rewrite ?Hpub; auto).
    unfold has_permission_spec.
    destruct (max_role (bound_roles st k (dl_uid l))) as [m|]; split.
    + intro H; now exists m.
    + intros (m' & [= <-] & H); exact H.
    + discriminate.
    + intros (m' & H & _); discriminate.
  - intro Ho; split; eapply has_permissions_of_binding; eauto.
  - intro He; eapply has_permissions_of_binding; eauto.
Qed.

(** C6: on a public layer the Viewer check passes for every credential and
    for none; a higher role is refused to a credential without bindings and
    to a request without credential. *)
Theorem public_flag_grants_viewer_only st l :
  dl_is_public l = true ->
  (forall token_key, has_permissions st l token_key VIEWER = true)
  /\ (forall k r, r <> VIEWER -> bound_roles st k (dl_uid l) = [] ->
      has_permissions st l (Some k) r = false)
  /\ (forall r, r <> VIEWER -> has_permissions st l None r = false).
Proof.
  intros Hpub. split; [|split].
  - intro tk. unfold has_permissions. rewrite Hpub. reflexivity.
  - intros k r Hr Hnone.
    assert (Hd : dl_is_public l && role_eqb r VIEWER = false).
    { rewrite Hpub; simpl. destruct r; try reflexivity. now elim Hr. }
    destruct (String.eqb_spec k EmptyString) as [-> | Hk].
    + unfold has_permissions. rewrite Hd. reflexivity.
    + rewrite has_permissions_refines by assumption.
      unfold has_permission_spec. rewrite Hnone. reflexivity.
  - intros r Hr. unfold has_permissions.
    destruct r; try (now elim Hr); rewrite Hpub; reflexivity.
Qed.

End Resolver.

(** ** Lists *)

Lemma filter_twice {A : Type} (p q : A -> bool) (xs : list A) :
  filter q (filter p xs) = filter (fun x => p x && q x) xs.
Proof.
  induction xs as [|x xs IH]; simpl; [reflexivity|].
  destruct (p x); simpl; [destruct (q x)|]; rewrite IH; reflexivity.
Qed.

Lemma NoDup_map_filter {A B : Type} (f : A -> B) (p : A -> bool) (xs : list A) :
  NoDup (map f xs) -> NoDup (map f (filter p xs)).
Proof.
  induction xs as [|x xs IH]; simpl; intro H; [constructor|].
  apply NoDup_cons_iff in H as [Hx Hnd].
  destruct (p x); simpl; [|now apply IH].
  constructor; [|now apply IH].
  intro Hin. apply Hx. apply in_map_iff in Hin as (y & Hy & Hin).
  apply filter_In in Hin as [Hin _]. apply in_map_iff. now exists y.
Qed.

(** Rows with distinct keys are determined by their key. *)
Lemma NoDup_map_key {A B : Type} (f : A -> B) (xs : list A) (x y : A) :
  NoDup (map f xs) -> In x xs -> In y xs -> f x = f y -> x = y.
Proof.
  induction xs as [|a xs IH]; simpl; intros Hnd Hx Hy Hf; [contradiction|].
  apply NoDup_cons_iff in Hnd as [Ha Hnd].
  destruct Hx as [<- | Hx], Hy as [<- | Hy]; auto.
  - exfalso. apply Ha. rewrite Hf. now apply in_map.
  - exfalso. apply Ha. rewrite <- Hf. now apply in_map.
Qed.

Section Projection.

Variable Geometry : Type.
Variable intersects : Geometry -> Geometry -> bool.
Implicit Types (st : Store Geometry) (v : GeoView Geometry) (l : DataLayer).

(** The entry the loop appends for a permitted layer. *)
Let entry_of st (w : Geometry) l : Entry :=
  mkEntry (dl_uid l) (map ft_uid (intersecting_features intersects st (dl_uid l) w)).

Let permitted st v l : bool := has_permissions st l (gv_token_key v) VIEWER.

Lemma feature_set_intersects st l w :
  filter_geom__intersects intersects (feature_set st l) (Some w)
  = inr (intersecting_features intersects st (dl_uid l) w).
Proof.
  unfold filter_geom__intersects, feature_set, intersecting_features.
  rewrite filter_twice. f_equal. apply filter_ext. intro f.
  destruct (ft_layer f), (ft_geom f); simpl; try reflexivity.
  now rewrite andb_false_r.
Qed.

(** With a window the loop never raises: it appends one entry per permitted
    layer, in the order it meets them. *)
Lemma get_features_loop_window st v w (layers : list DataLayer) (results : list Entry) :
  gv_geom v = Some w ->
  get_features_loop intersects st v layers results
  = inr (results ++ map (entry_of st w) (filter (permitted st v) layers)).
Proof.
  intro Hw. revert results. induction layers as [|l ls IH]; intro results; simpl.
  - now rewrite app_nil_r.
  - unfold permitted at 1. destruct (has_permissions st l (gv_token_key v) VIEWER).
    + rewrite Hw, feature_set_intersects, IH. simpl. now rewrite <- app_assoc.
    + apply IH.
Qed.

Lemma get_features_window st v w :
  gv_geom v = Some w ->
  get_features intersects st v
  = inr (map (entry_of st w) (filter (permitted st v) (layers_all st v))).
Proof. intro Hw. unfold get_features. now rewrite (get_features_loop_window _ _ w). Qed.

(** Without a window the loop returns only what it was given. *)
Lemma get_features_loop_no_window st v (layers : list DataLayer) (results entries : list Entry) :
  gv_geom v = None ->
  get_features_loop intersects st v layers results = inr entries -> entries = results.
Proof.
  intro Hw. revert results. induction layers as [|l ls IH]; intro results; simpl.
  - now intros [= <-].
  - destruct (has_permissions st l (gv_token_key v) VIEWER).
    + rewrite Hw. simpl. discriminate.
    + apply IH.
Qed.

Lemma layers_all_In st v l :
  In l (layers_all st v) <-> In l (datalayers st) /\ associated st v (dl_uid l).
Proof.
  unfold layers_all, associated. rewrite in_flat_map. split.
  - intros ([a b] & Hrow & Hin). simpl in Hin.
    destruct (String.eqb_spec a (gv_uid v)) as [-> | ?]; [|contradiction].
    apply filter_In in Hin as [Hin Hu]. apply String.eqb_eq in Hu. rewrite Hu. auto.
  - intros [Hin Hrow]. exists (gv_uid v, dl_uid l). split; [assumption|]. simpl.
    rewrite String.eqb_refl. apply filter_In. split; [assumption|]. apply String.eqb_refl.
Qed.

Lemma intersecting_features_In st layer_uid w fid :
  In fid (map ft_uid (intersecting_features intersects st layer_uid w)) <->
  exists f g, In f (features st) /\ ft_uid f = fid /\ ft_layer f = Some layer_uid
              /\ ft_geom f = Some g /\ intersects g w = true.
Proof.
  unfold intersecting_features. rewrite in_map_iff. split.
  - intros (f & Hid & Hin). apply filter_In in Hin as [Hin Hc].
    destruct (ft_layer f) as [lu|] eqn:El; [|discriminate].
    destruct (ft_geom f) as [g|] eqn:Eg; [|discriminate].
    apply andb_prop in Hc as [Hl Hi]. apply String.eqb_eq in Hl. subst lu.
    exists f, g. auto.
  - intros (f & g & Hin & Hid & Hl & Hg & Hi). exists f. split; [assumption|].
    apply filter_In. split; [assumption|]. rewrite Hl, Hg, String.eqb_refl, Hi. reflexivity.
Qed.

(** C3: for a view with a window and a layer of it that the view's
    credential may view, the projection has an entry for the layer, every
    entry under the layer's uid lists exactly the uids of the features the
    layer owns whose geometry intersects the window, and an entry carries
    uids only. *)
Theorem get_features_lists_intersecting st v w l :
  gv_geom v = Some w ->
  In l (layers_all st v) ->
  has_permissions st l (gv_token_key v) VIEWER = true ->
  exists entries,
    get_features intersects st v = inr entries
    /\ In (mkEntry (dl_uid l) (map ft_uid (intersecting_features intersects st (dl_uid l) w)))
          entries
    /\ (forall e, In e entries -> entry_uid e = dl_uid l ->
        entry_features e = map ft_uid (intersecting_features intersects st (dl_uid l) w))
    /\ (forall fid,
        In fid (map ft_uid (intersecting_features intersects st (dl_uid l) w)) <->
        exists f g, In f (features st) /\ ft_uid f = fid /\ ft_layer f = Some (dl_uid l)
                    /\ ft_geom f = Some g /\ intersects g w = true).
Proof.
  intros Hw Hin Hperm. eexists. split; [apply (get_features_window _ _ w Hw)|].
  split; [|split].
  - apply in_map_iff. exists l. split; [reflexivity|]. apply filter_In. now split.
  - intros e He Hu. apply in_map_iff in He as (l' & <- & _). simpl in *.
    now rewrite Hu.
  - intro fid. apply intersecting_features_In.
Qed.

Lemma layers_all_NoDup st v :
  layer_pk st -> join_unique st -> NoDup (map dl_uid (layers_all st v)).
Proof.
  unfold layer_pk, join_unique, layers_all. intros Hpk.
  induction (geoview_layers st) as [|[a b] rows IH]; simpl; intro Hnd; [constructor|].
  apply NoDup_cons_iff in Hnd as [Hrow Hnd]. rewrite map_app.
  apply NoDup_app; [| now apply IH |].
  - destruct (a =? gv_uid v)%string; [now apply NoDup_map_filter | constructor].
  - intros u Hu Hu'.
    destruct (String.eqb_spec a (gv_uid v)) as [-> | ?]; [|contradiction].
    apply in_map_iff in Hu as (x & <- & Hx). apply filter_In in Hx as [_ Hx].
    apply String.eqb_eq in Hx.
    apply in_map_iff in Hu' as (y & Hy & Hin). apply in_flat_map in Hin as ([a' b'] & Hr & Hin).
    simpl in Hin. destruct (String.eqb_spec a' (gv_uid v)) as [-> | ?]; [|contradiction].
    apply filter_In in Hin as [_ Hb']. apply String.eqb_eq in Hb'.
    apply Hrow. rewrite <- Hx, <- Hy, Hb'. exact Hr.
Qed.

(** C4, as the loop has it: for a view with a window, in whatever order
    the database enumerates the layers related to the view, the loop returns
    a projection whose entries name, in that order, exactly the related
    layers that pass the Viewer check for the view's credential; a layer
    that fails the check has no entry ([uid] being the primary key of
    layers), and a permitted layer without intersecting feature has an entry
    with an empty list. *)
Theorem get_features_follows_enumeration st v w (layers : list DataLayer) :
  gv_geom v = Some w ->
  Permutation layers (layers_all st v) ->
  exists entries,
    get_features_loop intersects st v layers [] = inr entries
    /\ map entry_uid entries
       = map dl_uid (filter (fun l => has_permissions st l (gv_token_key v) VIEWER) layers)
    /\ (forall uid, In uid (map entry_uid entries) <->
        exists l, In l (datalayers st) /\ dl_uid l = uid /\ associated st v uid
                  /\ has_permissions st l (gv_token_key v) VIEWER = true)
    /\ (forall l, layer_pk st -> In l (layers_all st v) ->
        has_permissions st l (gv_token_key v) VIEWER = false ->
        ~ In (dl_uid l) (map entry_uid entries))
    /\ (forall l, In l (layers_all st v) ->
        has_permissions st l (gv_token_key v) VIEWER = true ->
        intersecting_features intersects st (dl_uid l) w = [] ->
        In (mkEntry (dl_uid l) []) entries).
Proof.
  intros Hw Hperm. eexists. split; [apply (get_features_loop_window _ _ w _ _ Hw)|].
  simpl app.
  assert (Hmap : map entry_uid (map (entry_of st w) (filter (permitted st v) layers))
                 = map dl_uid (filter (permitted st v) layers)).
  { rewrite map_map. reflexivity. }
  split; [exact Hmap|]. split; [|split].
  - intro uid. rewrite Hmap, in_map_iff. split.
    + intros (l & <- & Hl). apply filter_In in Hl as [Hl Hp].
      apply (Permutation_in _ Hperm) in Hl.
      apply layers_all_In in Hl as [Hin Ha]. exists l. auto.
    + intros (l & Hin & <- & Ha & Hp). exists l. split; [reflexivity|].
      apply filter_In. split; [|exact Hp].
      apply (Permutation_in _ (Permutation_sym Hperm)). apply layers_all_In. auto.
  - intros l Hpk Hl Hno Hin. rewrite Hmap in Hin.
    apply in_map_iff in Hin as (l' & Hu & Hl'). apply filter_In in Hl' as [Hl' Hp].
    apply (Permutation_in _ Hperm) in Hl'.
    apply layers_all_In in Hl as [Hl _]. apply layers_all_In in Hl' as [Hl' _].
    assert (l' = l) as -> by (apply (NoDup_map_key dl_uid (datalayers st)); assumption).
    unfold permitted in Hp. congruence.
  - intros l Hl Hp Hnone. apply in_map_iff. exists l. split.
    + unfold entry_of. now rewrite Hnone.
    + apply filter_In. split; [|exact Hp].
      now apply (Permutation_in _ (Permutation_sym Hperm)).
Qed.

(** C9: under the primary keys and the uniqueness of the join table, every
    entry of a projection names a layer related to the view, no layer has
    two entries, and every feature uid of an entry is the uid of a feature
    of that very layer and of no other; a view with a window always has a
    projection. *)
Theorem get_features_well_formed st v :
  layer_pk st -> join_unique st -> feature_pk st ->
  (forall w, gv_geom v = Some w -> exists entries, get_features intersects st v = inr entries)
  /\ forall entries, get_features intersects st v = inr entries ->
     (forall e, In e entries -> associated st v (entry_uid e))
     /\ NoDup (map entry_uid entries)
     /\ (forall e fid, In e entries -> In fid (entry_features e) ->
         (exists f, In f (features st) /\ ft_uid f = fid /\ ft_layer f = Some (entry_uid e))
         /\ (forall f, In f (features st) -> ft_uid f = fid ->
             ft_layer f = Some (entry_uid e))).
Proof.
  intros Hlpk Hju Hfpk. split.
  - intros w Hw. eexists. apply (get_features_window _ _ w Hw).
  - intros entries Hres. destruct (gv_geom v) as [w|] eqn:Hw.
    + rewrite (get_features_window _ _ w Hw) in Hres. injection Hres as <-.
      split; [|split].
      * intros e He. apply in_map_iff in He as (l & <- & Hl).
        apply filter_In in Hl as [Hl _]. now apply layers_all_In in Hl as [_ ?].
      * rewrite map_map. simpl. apply NoDup_map_filter. now apply layers_all_NoDup.
      * intros e fid He Hfid. apply in_map_iff in He as (l & <- & Hl). simpl in *.
        apply intersecting_features_In in Hfid as (f & g & Hin & Hid & Hown & _).
        split; [now exists f|].
        intros f' Hin' Hid'.
        assert (f' = f) as ->
          by (apply (NoDup_map_key ft_uid (features st));
              first [exact Hfpk | assumption | congruence]).
        exact Hown.
    + apply (get_features_loop_no_window _ _ _ _ _ Hw) in Hres. subst entries.
      split; [|split]; [intros e [] | constructor | intros e fid []].
Qed.

End Projection.

Section Handlers.

Variable Geometry : Type.
Variable has_layer_permissions : Store Geometry -> option string -> string -> Role -> bool.
Implicit Types (st : Store Geometry) (l : DataLayer) (k : string) (r : Role).

(** A store is its seven tables. *)
Lemma set_datalayerroles_same st : set_datalayerroles st (datalayerroles st) = st.
Proof. destruct st; reflexivity. Qed.

Lemma filter_all {A : Type} (p : A -> bool) (xs : list A) :
  (forall x, In x xs -> p x = true) -> filter p xs = xs.
Proof.
  intro H. apply forallb_filter_id. apply forallb_forall. exact H.
Qed.

Lemma matches_negb layer_uid r token_uid (b : DataLayerRole) :
  negb ((dlr_layer_id b =? layer_uid)%string && role_eqb (dlr_role b) r
        && (dlr_token_id b =? token_uid)%string) = true
  <-> ~ matches layer_uid r token_uid b.
Proof.
  unfold matches. rewrite negb_true_iff. split.
  - intros H (Hl & Hr & Ht). rewrite Hl, Hr, Ht in H.
    now rewrite !String.eqb_refl, role_eqb_refl in H.
  - intro H. destruct (String.eqb_spec (dlr_layer_id b) layer_uid) as [Hl|]; [|reflexivity].
    destruct (role_eqb (dlr_role b) r) eqn:Hr; [|reflexivity].
    destruct (String.eqb_spec (dlr_token_id b) token_uid) as [Ht|]; [|reflexivity].
    exfalso. apply H. apply role_eqb_eq in Hr. auto.
Qed.

Lemma DataLayerRole_delete_In st layer_uid r token_uid (b : DataLayerRole) :
  In b (datalayerroles (DataLayerRole_delete st layer_uid r token_uid))
  <-> In b (datalayerroles st) /\ ~ matches layer_uid r token_uid b.
Proof.
  unfold DataLayerRole_delete. simpl. rewrite filter_In, matches_negb. reflexivity.
Qed.

Lemma DataLayerRole_delete_absent st layer_uid r token_uid :
  (forall b, In b (datalayerroles st) -> ~ matches layer_uid r token_uid b) ->
  DataLayerRole_delete st layer_uid r token_uid = st.
Proof.
  intro H. unfold DataLayerRole_delete. rewrite filter_all.
  - apply set_datalayerroles_same.
  - intros b Hb. apply matches_negb. now apply H.
Qed.

Lemma DataLayerRole_delete_twice st layer_uid r token_uid :
  DataLayerRole_delete (DataLayerRole_delete st layer_uid r token_uid) layer_uid r token_uid
  = DataLayerRole_delete st layer_uid r token_uid.
Proof.
  apply DataLayerRole_delete_absent. intros b Hb.
  now apply DataLayerRole_delete_In in Hb as [_ ?].
Qed.

(** Each revoke handler is the guard followed by the delete of its role. *)
Lemma removeLayer_unfold r st token_key layer_uid token_uid :
  removeLayer has_layer_permissions r st token_key layer_uid token_uid
  = if has_layer_permissions st token_key layer_uid OWNER
    then (JsonError "Removed access for token.", DataLayerRole_delete st layer_uid r token_uid)
    else (JsonError "Not permitted to edit Layer.", st).
Proof. destruct r; reflexivity. Qed.

(** A revoke leaves the store as it is or deletes the matching rows. *)
Lemma removeLayer_store r st token_key layer_uid token_uid :
  let st' := snd (removeLayer has_layer_permissions r st token_key layer_uid token_uid) in
  st' = st \/ st' = DataLayerRole_delete st layer_uid r token_uid.
Proof.
  simpl. rewrite removeLayer_unfold.
  destruct (has_layer_permissions st token_key layer_uid OWNER); simpl; auto.
Qed.

(** C8: when the caller passes the Owner guard and no binding
    ([token_uid], [layer_uid], [r]) exists, the revoke answers
    "Removed access for token." and leaves the store, hence every later
    permission check, as it was; and from any store, the caller revoking
    twice leaves the store that revoking once leaves. *)
Theorem revoke_is_idempotent r st token_key layer_uid token_uid :
  has_layer_permissions st token_key layer_uid OWNER = true ->
  (forall b, In b (datalayerroles st) -> ~ matches layer_uid r token_uid b) ->
  removeLayer has_layer_permissions r st token_key layer_uid token_uid
  = (JsonError "Removed access for token.", st)
  /\ (forall l token_key' r',
      has_permissions
        (snd (removeLayer has_layer_permissions r st token_key layer_uid token_uid))
        l token_key' r'
      = has_permissions st l token_key' r')
  /\ (forall st0 caller,
      snd (removeLayer has_layer_permissions r
             (snd (removeLayer has_layer_permissions r st0 caller layer_uid token_uid))
             caller layer_uid token_uid)
      = snd (removeLayer has_layer_permissions r st0 caller layer_uid token_uid)).
Proof.
  intros Hguard Habsent.
  assert (E : removeLayer has_layer_permissions r st token_key layer_uid token_uid
              = (JsonError "Removed access for token.", st)).
  { rewrite removeLayer_unfold, Hguard. now rewrite DataLayerRole_delete_absent. }
  split; [exact E|]. split.
  - intros l tk r'. now rewrite E.
  - intros st0 caller. rewrite (removeLayer_unfold r st0).
    destruct (has_layer_permissions st0 caller layer_uid OWNER) eqn:G0; simpl snd.
    + rewrite removeLayer_unfold.
      match goal with |- context [if ?g then _ else _] => destruct g end; simpl;
        [apply DataLayerRole_delete_twice | reflexivity].
    + rewrite removeLayer_unfold, G0. reflexivity.
Qed.

Lemma token__key_set_datalayerroles st (rs : list DataLayerRole) (token_id k : string) :
  token__key (set_datalayerroles st rs) token_id k = token__key st token_id k.
Proof. reflexivity. Qed.

(** A binding of another role survives the revoke. *)
Lemma DataLayerRole_delete_holds st layer_uid r token_uid k layer_uid' r' :
  r' <> r -> holds st k layer_uid' r' ->
  holds (DataLayerRole_delete st layer_uid r token_uid) k layer_uid' r'.
Proof.
  intros Hne (b & Hin & Hk & Hl & Hr). exists b. repeat split; try assumption.
  apply DataLayerRole_delete_In. split; [assumption|].
  intros (_ & Hr' & _). congruence.
Qed.

(** C10: a revoke of role [r] for a token on a layer keeps every layer
    binding that is not exactly (token, layer, [r]) and adds none, so the
    other bindings are the same list before and after; when the guard lets
    it through, the bindings aimed at are gone; the view bindings and all
    other tables are untouched; a binding of another role is still held,
    and after a revoke of Viewer a credential holding Owner on a layer still
    passes its Viewer check. *)
Theorem revoke_preserves_other_bindings r st token_key layer_uid token_uid :
  let st' := snd (removeLayer has_layer_permissions r st token_key layer_uid token_uid) in
  (forall b, In b (datalayerroles st) -> ~ matches layer_uid r token_uid b ->
             In b (datalayerroles st'))
  /\ (forall b, In b (datalayerroles st') -> In b (datalayerroles st))
  /\ datalayerroles (DataLayerRole_delete st' layer_uid r token_uid)
     = datalayerroles (DataLayerRole_delete st layer_uid r token_uid)
  /\ (has_layer_permissions st token_key layer_uid OWNER = true ->
      forall b, In b (datalayerroles st') -> ~ matches layer_uid r token_uid b)
  /\ (geoviewroles st' = geoviewroles st /\ apitokens st' = apitokens st
      /\ datalayers st' = datalayers st /\ geoviews st' = geoviews st
      /\ geoview_layers st' = geoview_layers st /\ features st' = features st)
  /\ (forall k layer_uid' r', r' <> r -> holds st k layer_uid' r' -> holds st' k layer_uid' r')
  /\ (forall l k, r = VIEWER -> k <> EmptyString -> holds st k (dl_uid l) OWNER ->
      has_permissions st' l (Some k) VIEWER = true).
Proof.
  cbv zeta. rewrite removeLayer_unfold.
  destruct (has_layer_permissions st token_key layer_uid OWNER); simpl snd.
  - split; [|split; [|split; [|split; [|split; [|split]]]]].
    + intros b Hin Hn. apply DataLayerRole_delete_In. now split.
    + intros b Hin. now apply DataLayerRole_delete_In in Hin as [? _].
    + now rewrite DataLayerRole_delete_twice.
    + intros _ b Hin. now apply DataLayerRole_delete_In in Hin as [_ ?].
    + repeat split; reflexivity.
    + intros k L' r' Hne Hh. now apply DataLayerRole_delete_holds.
    + intros l k -> Hk Hh. apply (has_permissions_of_binding _ _ _ _ _ OWNER);
        [assumption | | reflexivity].
      apply DataLayerRole_delete_holds; [discriminate | assumption].
  - split; [|split; [|split; [|split; [|split; [|split]]]]]; auto.
    + discriminate.
    + repeat split; reflexivity.
    + intros l k _ Hk Hh. now apply (has_permissions_of_binding _ _ _ _ _ OWNER).
Qed.

(** ** Grants *)

(** [GeoViewRole] has no [layer_id]: the constructor refuses the keyword. *)
Lemma GeoViewRole_create_layer_id st layer_uid r token_uid :
  GeoViewRole_create
    [("layer_id", VStr layer_uid); ("role", VRole r); ("token_id", VStr token_uid)]%string st
  = inl (invalid_keyword "layer_id").
Proof. reflexivity. Qed.

(** The Owner grant raises once the guard is passed, and never writes. *)
Lemma addLayerOwner_raises st token_key layer_uid token_uid :
  has_layer_permissions st token_key layer_uid OWNER = true ->
  addLayerOwner has_layer_permissions st token_key layer_uid token_uid
  = (Raised (invalid_keyword "layer_id"), st).
Proof.
  intro Hg. unfold addLayerOwner. now rewrite Hg, GeoViewRole_create_layer_id.
Qed.

Lemma addLayerOwner_store st token_key layer_uid token_uid :
  snd (addLayerOwner has_layer_permissions st token_key layer_uid token_uid) = st.
Proof.
  unfold addLayerOwner. rewrite GeoViewRole_create_layer_id.
  destruct (has_layer_permissions st token_key layer_uid OWNER); reflexivity.
Qed.

(** The Editor and the Viewer grant append the binding, after which the
    grantee passes the check for that role. *)
Lemma addLayer_grants r st token_key layer_uid token_uid :
  r <> OWNER ->
  has_layer_permissions st token_key layer_uid OWNER = true ->
  let res := addLayer has_layer_permissions r st token_key layer_uid token_uid in
  res = (JsonError "Added access for token.",
         set_datalayerroles st
           (datalayerroles st ++ [mkDataLayerRole token_uid r layer_uid]))
  /\ forall l t, dl_uid l = layer_uid -> In t (apitokens st) -> tk_uid t = token_uid ->
                 tk_key t <> EmptyString ->
                 has_permissions (snd res) l (Some (tk_key t)) r = true.
Proof.
  intros Hr Hg. cbv zeta.
  assert (E : addLayer has_layer_permissions r st token_key layer_uid token_uid
              = (JsonError "Added access for token.",
                 set_datalayerroles st
                   (datalayerroles st ++ [mkDataLayerRole token_uid r layer_uid]))).
  { destruct r; [| | now elim Hr]; simpl;
      [unfold addLayerViewer | unfold addLayerEditor]; rewrite Hg; reflexivity. }
  split; [exact E|]. rewrite E. simpl snd.
  intros l t Hl Hin Ht Hk.
  apply (has_permissions_of_binding _ _ _ _ _ r); [assumption | | apply role_le_refl].
  exists (mkDataLayerRole token_uid r layer_uid). simpl. repeat split; auto.
  - apply in_or_app. right. now left.
  - unfold token__key. simpl. apply existsb_exists. exists t. split; [assumption|].
    now rewrite Ht, !String.eqb_refl.
Qed.

End Handlers.

(** C2, at the Owner grant: T1 owns layer l1 and grants Owner to T2; the
    guard passes, the handler raises on the keyword [layer_id] that
    [GeoViewRole] does not have, the store is unchanged and T2 still fails
    the Owner check. *)
Theorem addLayerOwner_grants_nothing :
  has_permission Scenario.db (Some "key1"%string) "l1" OWNER = true
  /\ addLayerOwner has_permission Scenario.db (Some "key1"%string) "l1" "t2"
     = (Raised (TypeError "'layer_id' is an invalid keyword argument for this function"),
        Scenario.db)
  /\ has_permissions
       (snd (addLayerOwner has_permission Scenario.db (Some "key1"%string) "l1" "t2"))
       Scenario.L1 (Some "key2"%string) OWNER = false.
Proof. repeat split; reflexivity. Qed.

Section Creation.

Variable Geometry : Type.
Implicit Types (st : Store Geometry) (l : DataLayer).

Lemma has_owner_more_roles st l (rs : list DataLayerRole) :
  has_owner st l = true ->
  has_owner (set_datalayerroles st (datalayerroles st ++ rs)) l = true.
Proof.
  unfold has_owner. simpl. intro H. rewrite existsb_app, H. reflexivity.
Qed.

(** The first write adds the layer and no binding. *)
Lemma create_layer_writes st uid descriptor is_public properties :
  let res := create_layer st uid descriptor is_public properties in
  fst res = uid
  /\ (exists l, In l (datalayers (snd res)) /\ dl_uid l = uid)
  /\ datalayerroles (snd res) = datalayerroles st
  /\ apitokens (snd res) = apitokens st.
Proof.
  simpl. repeat split. eexists. split; [apply in_or_app; right; left; reflexivity|].
  reflexivity.
Qed.

(** When the second write fails the first one stays. *)
Lemma layers_POST_no_rollback st token_key new_uid body :
  get_apitoken st token_key = None ->
  layers_POST st token_key new_uid body
  = (Raised (cannot_assign "DataLayerRole.token"),
     snd (create_layer st new_uid (body_des body) (parse_public body) (body_props body))).
Proof.
  intro Hnone. unfold layers_POST. simpl. unfold save_owner_role.
  change (get_apitoken (Geometry := Geometry) _ token_key) with (get_apitoken st token_key).
  now rewrite Hnone.
Qed.

(** C1, as the handler has it: for a caller whose token exists the POST
    branch makes two successive writes, first the layer (no binding is
    written with it), then the Owner binding of the caller's token on it, and
    answers the new uid; in the final store the layer and the binding are
    both present, and every layer has an Owner binding if every layer had
    one before. *)
Theorem layers_POST_creates_layer_then_owner st token_key new_uid body t :
  get_apitoken st token_key = Some t ->
  exists st1 st2,
    layers_POST st token_key new_uid body = (ToJson new_uid, st2)
    /\ layers_POST_step token_key new_uid (layers_POST_init st body)
       = Some (Created new_uid, st1)
    /\ layers_POST_step token_key new_uid (Created new_uid, st1)
       = Some (Returned (ToJson new_uid), st2)
    /\ (exists l, In l (datalayers st1) /\ dl_uid l = new_uid)
    /\ datalayerroles st1 = datalayerroles st
    /\ datalayers st2 = datalayers st1
    /\ datalayerroles st2 = datalayerroles st ++ [mkDataLayerRole (tk_uid t) OWNER new_uid]
    /\ (every_layer_owned st = true -> every_layer_owned st2 = true).
Proof.
  intro Ht.
  set (st1 := snd (create_layer st new_uid (body_des body) (parse_public body) (body_props body))).
  set (st2 := set_datalayerroles st1
                (datalayerroles st1 ++ [mkDataLayerRole (tk_uid t) OWNER new_uid])).
  assert (Hsave : save_owner_role st1 token_key new_uid = inr st2).
  { unfold save_owner_role.
    change (get_apitoken st1 token_key) with (get_apitoken st token_key).
    rewrite Ht. reflexivity. }
  exists st1, st2. split; [|split; [|split; [|split; [|split; [|split; [|split]]]]]].
  - unfold layers_POST.
    change (create_layer st new_uid (body_des body) (parse_public body) (body_props body))
      with (new_uid, st1).
    cbv beta iota zeta. now rewrite Hsave.
  - reflexivity.
  - unfold layers_POST_step. now rewrite Hsave.
  - eexists. split; [apply in_or_app; right; left; reflexivity | reflexivity].
  - reflexivity.
  - reflexivity.
  - reflexivity.
  - intro Hall. unfold every_layer_owned. apply forallb_forall. intros l Hl.
    simpl in Hl. apply in_app_or in Hl as [Hl | [<- | []]].
    + apply (has_owner_more_roles st1). unfold has_owner. simpl.
      unfold every_layer_owned in Hall. rewrite forallb_forall in Hall. now apply Hall.
    + unfold has_owner. simpl. rewrite existsb_app. simpl.
      now rewrite String.eqb_refl, orb_true_r.
Qed.

End Creation.

(** C1, as the specification words it, fails: with one credential and no layer, the
    configuration between the two writes shows the new layer without an
    Owner binding. *)
Lemma layers_POST_not_atomic : ~ layers_POST_atomic Scenario.Box.
Proof.
  intro H.
  specialize (H Scenario.db_empty (Some "key1"%string) "l9"%string Scenario.body
                (Created "l9",
                 snd (create_layer Scenario.db_empty "l9" (Some "roads"%string) (Some false) None))
                eq_refl).
  assert (R : layers_POST_reaches (Some "key1"%string) "l9"%string
                (layers_POST_init Scenario.db_empty Scenario.body)
                (Created "l9",
                 snd (create_layer Scenario.db_empty "l9" (Some "roads"%string) (Some false) None))).
  { eapply reaches_step; [reflexivity | apply reaches_here]. }
  specialize (H R). discriminate H.
Qed.

(** A caller whose key names no credential leaves the layer behind. *)
Lemma layers_POST_unknown_key :
  layers_POST Scenario.db_empty (Some "nokey"%string) "l9" Scenario.body
  = (Raised (cannot_assign "DataLayerRole.token"),
     set_datalayers Scenario.db_empty [mkDataLayer "l9" "roads" None false None])
  /\ every_layer_owned
       (snd (layers_POST Scenario.db_empty (Some "nokey"%string) "l9" Scenario.body))
     = false.
Proof. split; reflexivity. Qed.

Section FeatureIndex.

Variable Geometry : Type.
Variable content_hash : Geometry -> option string -> string.
Variable bounding_box : Geometry -> Geometry.
Implicit Types (st : Store Geometry).

Lemma hash_exists_In st (h : string) : hash_exists st h = true <-> In h (hashes st).
Proof.
  unfold hash_exists, hashes. rewrite existsb_exists, in_flat_map. split.
  - intros (f & Hin & Hh). exists f. split; [assumption|].
    destruct (ft_hash f) as [h'|]; [|discriminate].
    apply String.eqb_eq in Hh. subst. now left.
  - intros (f & Hin & Hh). exists f. split; [assumption|].
    destruct (ft_hash f) as [h'|]; [|contradiction].
    destruct Hh as [-> | []]. apply String.eqb_refl.
Qed.

(** Writing features changes no permission. *)
Lemma has_permission_set_features st (fs : list (Feature Geometry)) credential layer_id r :
  has_permission (set_features st fs) credential layer_id r
  = has_permission st credential layer_id r.
Proof. reflexivity. Qed.

(** After a permitted create the content hash is in the index, whether the
    feature was inserted or refused as a duplicate. *)
Lemma create_feature_indexes st new_uid now g layer_id properties credential :
  has_permission st credential layer_id EDITOR = true ->
  hash_exists
    (snd (create_feature content_hash bounding_box st new_uid now g layer_id properties credential))
    (content_hash g properties) = true.
Proof.
  intro Hp. unfold create_feature. rewrite Hp. simpl negb. cbv iota.
  destruct (hash_exists st (content_hash g properties)) eqn:E; simpl snd; [exact E|].
  unfold hash_exists. simpl. rewrite existsb_app. simpl.
  now rewrite String.eqb_refl, orb_true_r.
Qed.

(** C7: of two creates with the same geometry and properties, by callers
    with Editor on their layers, the second fails with [DuplicateContent]
    and leaves the store as the first left it; the first succeeds when the
    content is new; and a create keeps the hashes of the index distinct. *)
Theorem create_feature_rejects_duplicate st u1 u2 now1 now2 g properties
        layer1 layer2 credential1 credential2 :
  has_permission st credential1 layer1 EDITOR = true ->
  has_permission st credential2 layer2 EDITOR = true ->
  let first := create_feature content_hash bounding_box st u1 now1 g layer1 properties
                              credential1 in
  create_feature content_hash bounding_box (snd first) u2 now2 g layer2 properties credential2
  = (inl DuplicateContent, snd first)
  /\ (hash_exists st (content_hash g properties) = false -> fst first = inr u1)
  /\ (hash_unique st -> hash_unique (snd first)).
Proof.
  intros Hp1 Hp2. cbv zeta. split; [|split].
  - pose proof (create_feature_indexes st u1 now1 g layer1 properties credential1 Hp1) as Hix.
    assert (Hp2' : has_permission
                     (snd (create_feature content_hash bounding_box st u1 now1 g layer1
                                          properties credential1))
                     credential2 layer2 EDITOR = true).
    { unfold create_feature. rewrite Hp1. simpl negb. cbv iota.
      destruct (hash_exists st (content_hash g properties)); simpl snd;
        [exact Hp2 | now rewrite has_permission_set_features]. }
    unfold create_feature at 1. rewrite Hp2', Hix. reflexivity.
  - intro Hnew. unfold create_feature. rewrite Hp1, Hnew. reflexivity.
  - intro Hu. unfold create_feature. rewrite Hp1. simpl negb. cbv iota.
    destruct (hash_exists st (content_hash g properties)) eqn:E; simpl snd; [exact Hu|].
    unfold hash_unique, hashes. simpl. rewrite flat_map_app. simpl.
    apply NoDup_app; [exact Hu | repeat constructor; intros [] |].
    intros h Hin [<- | []]. apply hash_exists_In in Hin. congruence.
Qed.

End FeatureIndex.

(** * The properties at the scenario of the specification

    T1 owns the private layer l1, nobody is bound to the private layer l2,
    l3 is public; the view shows the three layers through the unit square;
    f1 lies at the origin and f2 at (100, 100), both in l1. *)

Ltac distinct := repeat (constructor; [simpl; intuition congruence|]); constructor.

(** T1, Owner of the private layer l1, passes the Editor and the Viewer check. *)
Lemma has_permissions_max_role_witness :
  dl_is_public Scenario.L1 = false
  /\ "key1"%string <> EmptyString
  /\ (has_permissions Scenario.db Scenario.L1 (Some "key1"%string) EDITOR = true <->
      exists m, max_role (bound_roles Scenario.db "key1" "l1") = Some m
                /\ role_le EDITOR m = true)
  /\ has_permissions Scenario.db Scenario.L1 (Some "key1"%string) VIEWER = true.
Proof.
  assert (H1 : dl_is_public Scenario.L1 = false) by reflexivity.
  assert (H2 : "key1"%string <> EmptyString) by discriminate.
  pose proof (has_permissions_max_role Scenario.Box Scenario.db Scenario.L1 "key1" EDITOR H1 H2)
    as (Hiff & Hown & _).
  split; [exact H1 | split; [exact H2 | split; [exact Hiff|]]].
  apply Hown. exists (mkDataLayerRole "t1" OWNER "l1").
  repeat split. now left.
Defined.

(** The public layer l3: Viewer without credential, no Editor for T2 or for nobody. *)
Lemma public_flag_grants_viewer_only_witness :
  dl_is_public Scenario.L3 = true
  /\ has_permissions Scenario.db Scenario.L3 None VIEWER = true
  /\ has_permissions Scenario.db Scenario.L3 (Some "key2"%string) EDITOR = false
  /\ has_permissions Scenario.db Scenario.L3 None EDITOR = false.
Proof.
  assert (H1 : dl_is_public Scenario.L3 = true) by reflexivity.
  pose proof (public_flag_grants_viewer_only Scenario.Box Scenario.db Scenario.L3 H1)
    as (Hv & He & Hn).
  split; [exact H1 | split; [apply Hv | split; [apply He | apply Hn]]];
    try discriminate; reflexivity.
Defined.

(** The view lists f1 under l1; f2 at (100, 100) is outside the unit square. *)
Lemma get_features_lists_intersecting_witness :
  gv_geom Scenario.V = Some Scenario.unit_square
  /\ In Scenario.L1 (layers_all Scenario.db Scenario.V)
  /\ has_permissions Scenario.db Scenario.L1 (gv_token_key Scenario.V) VIEWER = true
  /\ exists entries,
      get_features Scenario.box_intersects Scenario.db Scenario.V = inr entries
      /\ In (mkEntry "l1" ["f1"%string]) entries.
Proof.
  assert (H1 : gv_geom Scenario.V = Some Scenario.unit_square) by reflexivity.
  assert (H2 : In Scenario.L1 (layers_all Scenario.db Scenario.V)) by (now left).
  assert (H3 : has_permissions Scenario.db Scenario.L1 (gv_token_key Scenario.V) VIEWER = true)
    by reflexivity.
  destruct (get_features_lists_intersecting Scenario.Box Scenario.box_intersects
              Scenario.db Scenario.V Scenario.unit_square Scenario.L1 H1 H2 H3)
    as (entries & Hres & Hin & _).
  split; [exact H1 | split; [exact H2 | split; [exact H3|]]].
  exists entries. split; [exact Hres | exact Hin].
Defined.

(** Enumerated as l3, l2, l1 the view shows l3 and then l1; l2 is absent. *)
Lemma get_features_follows_enumeration_witness :
  gv_geom Scenario.V = Some Scenario.unit_square
  /\ Permutation [Scenario.L3; Scenario.L2; Scenario.L1]
                 (layers_all Scenario.db Scenario.V)
  /\ exists entries,
      get_features_loop Scenario.box_intersects Scenario.db Scenario.V
                        [Scenario.L3; Scenario.L2; Scenario.L1] [] = inr entries
      /\ map entry_uid entries = ["l3"; "l1"]%string.
Proof.
  assert (H1 : gv_geom Scenario.V = Some Scenario.unit_square) by reflexivity.
  assert (H2 : Permutation [Scenario.L3; Scenario.L2; Scenario.L1]
                           (layers_all Scenario.db Scenario.V)).
  { change (layers_all Scenario.db Scenario.V)
      with (rev [Scenario.L3; Scenario.L2; Scenario.L1]).
    apply Permutation_rev. }
  destruct (get_features_follows_enumeration Scenario.Box Scenario.box_intersects
              Scenario.db Scenario.V Scenario.unit_square
              [Scenario.L3; Scenario.L2; Scenario.L1] H1 H2)
    as (entries & Hres & Hmap & _).
  split; [exact H1 | split; [exact H2|]].
  exists entries. split; [exact Hres | exact Hmap].
Defined.

(** C4, as the specification words it, fails twice: the view without window
    has the permitted layer l1 and no projection at all, and the view with
    window, its layers enumerated as l3, l2, l1, shows l3 before l1 although
    l1 was related first. *)
Lemma projection_not_as_specified :
  ~ projection_lists_permitted Scenario.Box Scenario.box_intersects
  /\ ~ projection_in_insertion_order Scenario.Box Scenario.box_intersects.
Proof.
  split.
  - intro H. destruct (H Scenario.db Scenario.V_no_window) as (entries & Hres & _).
    discriminate Hres.
  - intro H.
    assert (P : Permutation [Scenario.L3; Scenario.L2; Scenario.L1]
                            (layers_all Scenario.db Scenario.V)).
    { change (layers_all Scenario.db Scenario.V)
        with (rev [Scenario.L3; Scenario.L2; Scenario.L1]).
      apply Permutation_rev. }
    specialize (H Scenario.db Scenario.V [Scenario.L3; Scenario.L2; Scenario.L1]
                  [mkEntry "l3" []; mkEntry "l1" ["f1"%string]] P eq_refl).
    discriminate H.
Qed.

(** The scenario database keeps its keys, and its projection has one entry per layer. *)
Lemma get_features_well_formed_witness :
  layer_pk Scenario.db /\ join_unique Scenario.db /\ feature_pk Scenario.db
  /\ NoDup (map entry_uid [mkEntry "l1" ["f1"%string]; mkEntry "l3" []])
  /\ associated Scenario.db Scenario.V "l1".
Proof.
  assert (H1 : layer_pk Scenario.db) by (unfold layer_pk; simpl; distinct).
  assert (H2 : join_unique Scenario.db) by (unfold join_unique; simpl; distinct).
  assert (H3 : feature_pk Scenario.db) by (unfold feature_pk; simpl; distinct).
  destruct (get_features_well_formed Scenario.Box Scenario.box_intersects
              Scenario.db Scenario.V H1 H2 H3) as [_ Hwf].
  destruct (Hwf [mkEntry "l1" ["f1"%string]; mkEntry "l3" []] eq_refl) as (Ha & Hnd & _).
  split; [exact H1 | split; [exact H2 | split; [exact H3 | split; [exact Hnd|]]]].
  apply (Ha (mkEntry "l1" ["f1"%string])). now left.
Defined.

(** T1 creates a tree in l1; T2 creating the same tree in l2 is refused. *)
Lemma create_feature_rejects_duplicate_witness :
  has_permission Scenario.db_editors (Some "key1"%string) "l1" EDITOR = true
  /\ has_permission Scenario.db_editors (Some "key2"%string) "l2" EDITOR = true
  /\ create_feature Scenario.box_hash (fun g => g)
       (snd (create_feature Scenario.box_hash (fun g => g) Scenario.db_editors "f8" 10
                            (Scenario.point 3 4) "l1" (Some "tree"%string)
                            (Some "key1"%string)))
       "f9" 11 (Scenario.point 3 4) "l2" (Some "tree"%string) (Some "key2"%string)
     = (inl DuplicateContent,
        snd (create_feature Scenario.box_hash (fun g => g) Scenario.db_editors "f8" 10
                            (Scenario.point 3 4) "l1" (Some "tree"%string)
                            (Some "key1"%string)))
  /\ fst (create_feature Scenario.box_hash (fun g => g) Scenario.db_editors "f8" 10
                         (Scenario.point 3 4) "l1" (Some "tree"%string)
                         (Some "key1"%string))
     = inr "f8"%string.
Proof.
  assert (H1 : has_permission Scenario.db_editors (Some "key1"%string) "l1" EDITOR = true)
    by reflexivity.
  assert (H2 : has_permission Scenario.db_editors (Some "key2"%string) "l2" EDITOR = true)
    by reflexivity.
  destruct (create_feature_rejects_duplicate Scenario.Box Scenario.box_hash (fun g => g)
              Scenario.db_editors "f8" "f9" 10 11 (Scenario.point 3 4) (Some "tree"%string)
              "l1" "l2" (Some "key1"%string) (Some "key2"%string) H1 H2)
    as (Hdup & Hfirst & _).
  split; [exact H1 | split; [exact H2 | split; [exact Hdup | apply Hfirst; reflexivity]]].
Defined.

(** T1 revokes the Editor role T2 never had on l1: nothing changes. *)
Lemma revoke_is_idempotent_witness :
  has_permission Scenario.db (Some "key1"%string) "l1" OWNER = true
  /\ (forall b, In b (datalayerroles Scenario.db) -> ~ matches "l1" EDITOR "t2" b)
  /\ removeLayer has_permission EDITOR Scenario.db (Some "key1"%string) "l1" "t2"
     = (JsonError "Removed access for token.", Scenario.db).
Proof.
  assert (H1 : has_permission Scenario.db (Some "key1"%string) "l1" OWNER = true)
    by reflexivity.
  assert (H2 : forall b, In b (datalayerroles Scenario.db) -> ~ matches "l1" EDITOR "t2" b).
  { intros b [<- | []] (_ & Hr & _). discriminate Hr. }
  split; [exact H1 | split; [exact H2|]].
  exact (proj1 (revoke_is_idempotent Scenario.Box has_permission EDITOR Scenario.db
                  (Some "key1"%string) "l1" "t2" H1 H2)).
Defined.

(** T2 is Owner and Viewer of l1; after the Viewer revoke T2 still views l1. *)
Lemma revoke_preserves_other_bindings_witness :
  In (mkDataLayerRole "t2" OWNER "l1")
     (datalayerroles
        (snd (removeLayer has_permission VIEWER Scenario.db_two_roles
                          (Some "key1"%string) "l1" "t2")))
  /\ has_permissions
       (snd (removeLayer has_permission VIEWER Scenario.db_two_roles
                         (Some "key1"%string) "l1" "t2"))
       Scenario.L1 (Some "key2"%string) VIEWER = true.
Proof.
  destruct (revoke_preserves_other_bindings Scenario.Box has_permission VIEWER
              Scenario.db_two_roles (Some "key1"%string) "l1" "t2")
    as (Hkeep & _ & _ & _ & _ & _ & Hview).
  split.
  - apply Hkeep; [right; left; reflexivity | intros (_ & Hr & _); discriminate Hr].
  - apply (Hview Scenario.L1 "key2"%string); [reflexivity | discriminate |].
    exists (mkDataLayerRole "t2" OWNER "l1"). repeat split. right. now left.
Defined.

(** T1 posts a layer to the empty database and becomes its Owner. *)
Lemma layers_POST_creates_layer_then_owner_witness :
  get_apitoken Scenario.db_empty (Some "key1"%string) = Some Scenario.T1
  /\ exists st1 st2 : Store Scenario.Box,
      layers_POST Scenario.db_empty (Some "key1"%string) "l9" Scenario.body = (ToJson "l9", st2)
      /\ datalayerroles st1 = []
      /\ datalayerroles st2 = [mkDataLayerRole "t1" OWNER "l9"].
Proof.
  assert (H1 : get_apitoken Scenario.db_empty (Some "key1"%string) = Some Scenario.T1)
    by reflexivity.
  destruct (layers_POST_creates_layer_then_owner Scenario.Box Scenario.db_empty
              (Some "key1"%string) "l9" Scenario.body Scenario.T1 H1)
    as (st1 & st2 & Hres & _ & _ & _ & Hr1 & _ & Hr2 & _).
  split; [exact H1|]. exists st1, st2.
  split; [exact Hres | split; [exact Hr1 | exact Hr2]].
Defined.

(** * Further properties *)

(** ** The resolver *)

Section ResolverMore.

Variable Geometry : Type.
Implicit Types (st : Store Geometry) (l : DataLayer) (k : string) (r : Role).

(** Without a truthy key only the public flag speaks. *)
Lemma has_permissions_falsy st l token_key r :
  truthy token_key = false ->
  has_permissions st l token_key r = dl_is_public l && role_eqb r VIEWER.
Proof.
  intro H. unfold has_permissions. rewrite H.
  destruct (dl_is_public l && role_eqb r VIEWER); reflexivity.
Qed.

Lemma DataLayerRole_filter_unknown st k layer_uid r :
  (forall t, In t (apitokens st) -> tk_key t <> k) ->
  DataLayerRole_filter st k layer_uid r = [].
Proof.
  intro Hk. unfold DataLayerRole_filter.
  induction (datalayerroles st) as [|b bs IH]; simpl; [reflexivity|].
  assert (E : token__key st (dlr_token_id b) k = false).
  { unfold token__key. destruct (existsb _ (apitokens st)) eqn:E; [|reflexivity].
    apply existsb_exists in E as (t & Hin & Ht). apply andb_prop in Ht as [_ Ht].
    apply String.eqb_eq in Ht. now elim (Hk t Hin). }
  rewrite E. simpl. exact IH.
Qed.

(** Passing the check for a role passes the check for every lower role. *)
Theorem has_permissions_downward st l token_key r r' :
  has_permissions st l token_key r = true -> role_le r' r = true ->
  has_permissions st l token_key r' = true.
Proof.
  unfold has_permissions. destruct (truthy token_key) eqn:T; simpl negb; cbv iota.
  - destruct token_key as [k|]; [|discriminate].
    destruct (count (DataLayerRole_filter st k (dl_uid l) OWNER) >? 0);
    destruct (count (DataLayerRole_filter st k (dl_uid l) EDITOR) >? 0);
    destruct (count (DataLayerRole_filter st k (dl_uid l) VIEWER) >? 0);
    destruct (dl_is_public l), r, r'; simpl; intros; try reflexivity; discriminate.
  - destruct (dl_is_public l), r, r'; simpl; intros; try reflexivity; discriminate.
Qed.

(** A request without token, with an empty token, or with a key that no
    credential carries gets what the public flag gives and nothing more. *)
Theorem has_permissions_unknown_credential st l token_key r :
  (truthy token_key = false
   \/ exists k, token_key = Some k /\ forall t, In t (apitokens st) -> tk_key t <> k) ->
  has_permissions st l token_key r = dl_is_public l && role_eqb r VIEWER.
Proof.
  intros [H | (k & -> & Hk)]; [now apply has_permissions_falsy|].
  unfold has_permissions. rewrite !DataLayerRole_filter_unknown by assumption.
  destruct (dl_is_public l), r, (truthy (Some k)); reflexivity.
Qed.

Lemma holds_more_roles st (rs : list DataLayerRole) k layer_uid r :
  holds st k layer_uid r ->
  holds (set_datalayerroles st (datalayerroles st ++ rs)) k layer_uid r.
Proof.
  intros (b & Hin & Hk & Hl & Hr). exists b. repeat split; try assumption.
  simpl. apply in_or_app. now left.
Qed.

(** More bindings never take a permission away. *)
Lemma has_permissions_more_roles st (rs : list DataLayerRole) l token_key r :
  has_permissions st l token_key r = true ->
  has_permissions (set_datalayerroles st (datalayerroles st ++ rs)) l token_key r = true.
Proof.
  intro H. destruct (dl_is_public l && role_eqb r VIEWER) eqn:P.
  - unfold has_permissions. now rewrite P.
  - destruct (truthy token_key) eqn:T.
    + destruct token_key as [k|]; [|discriminate].
      assert (Hk : k <> EmptyString).
      { intros ->. discriminate T. }
      apply has_permissions_private in H as (r0 & Hh & Hle); [|assumption|assumption].
      apply has_permissions_private; [assumption | assumption |].
      exists r0. split; [now apply holds_more_roles | assumption].
    + rewrite has_permissions_falsy, P in H by assumption. discriminate.
Qed.

(** The answer for a layer reads the credentials and the bindings of that
    layer only: two stores that agree on them agree on every check. *)
Theorem has_permissions_local st st' l token_key r :
  apitokens st = apitokens st' ->
  filter (fun b => (dlr_layer_id b =? dl_uid l)%string) (datalayerroles st)
  = filter (fun b => (dlr_layer_id b =? dl_uid l)%string) (datalayerroles st') ->
  has_permissions st l token_key r = has_permissions st' l token_key r.
Proof.
  intros Ht Hb.
  assert (E : forall k r0, DataLayerRole_filter st k (dl_uid l) r0
                           = DataLayerRole_filter st' k (dl_uid l) r0).
  { intros k r0. unfold DataLayerRole_filter.
    transitivity
      (filter (fun b => token__key st (dlr_token_id b) k && role_eqb (dlr_role b) r0)
              (filter (fun b => (dlr_layer_id b =? dl_uid l)%string) (datalayerroles st))).
    - rewrite filter_twice. apply filter_ext. intro b.
      destruct (token__key st (dlr_token_id b) k), (dlr_layer_id b =? dl_uid l)%string,
               (role_eqb (dlr_role b) r0); reflexivity.
    - rewrite Hb, filter_twice. apply filter_ext. intro b.
      unfold token__key. rewrite Ht.
      destruct (existsb _ (apitokens st')), (dlr_layer_id b =? dl_uid l)%string,
               (role_eqb (dlr_role b) r0); reflexivity. }
  unfold has_permissions. destruct token_key as [k|]; [|reflexivity].
  now rewrite !E.
Qed.

End ResolverMore.

(** ** The projection and the layer association *)

Section ProjectionMore.

Variable Geometry : Type.
Variable intersects : Geometry -> Geometry -> bool.
Implicit Types (st : Store Geometry) (v : GeoView Geometry) (l : DataLayer).

(** What a projection is made of: one entry per permitted layer of the
    view, or nothing at all for a view without window. *)
Lemma get_features_entries st v (entries : list Entry) :
  get_features intersects st v = inr entries ->
  forall e, In e entries ->
    exists l w, In l (layers_all st v)
                /\ has_permissions st l (gv_token_key v) VIEWER = true
                /\ gv_geom v = Some w
                /\ e = mkEntry (dl_uid l)
                               (map ft_uid (intersecting_features intersects st (dl_uid l) w)).
Proof.
  intros Hres e He. destruct (gv_geom v) as [w|] eqn:Hw.
  - rewrite (get_features_window _ intersects st v w Hw) in Hres. injection Hres as <-.
    apply in_map_iff in He as (l & <- & Hl). apply filter_In in Hl as [Hl Hp].
    exists l, w. auto.
  - apply (get_features_loop_no_window _ intersects st v _ _ _ Hw) in Hres.
    subst entries. contradiction.
Qed.

(** A view read without a truthy token key shows public layers only. *)
Theorem get_features_anonymous_public st v (entries : list Entry) :
  truthy (gv_token_key v) = false ->
  get_features intersects st v = inr entries ->
  forall e, In e entries ->
    exists l, In l (datalayers st) /\ dl_uid l = entry_uid e /\ dl_is_public l = true
              /\ associated st v (entry_uid e).
Proof.
  intros Hanon Hres e He.
  destruct (get_features_entries st v entries Hres e He) as (l & w & Hl & Hp & _ & ->).
  apply layers_all_In in Hl as [Hin Ha].
  rewrite has_permissions_falsy in Hp by assumption.
  apply andb_prop in Hp as [Hpub _]. exists l. auto.
Qed.

(** With [uid] the primary key of features, an entry lists no feature
    twice, and a feature listed by two entries of a projection makes them
    the same entry. *)
Theorem get_features_features_once st v (entries : list Entry) :
  feature_pk st ->
  get_features intersects st v = inr entries ->
  (forall e, In e entries -> NoDup (entry_features e))
  /\ (forall e1 e2 fid, In e1 entries -> In e2 entries ->
      In fid (entry_features e1) -> In fid (entry_features e2) -> e1 = e2).
Proof.
  intros Hpk Hres. split.
  - intros e He. destruct (get_features_entries st v entries Hres e He)
      as (l & w & _ & _ & _ & ->). simpl.
    unfold intersecting_features. now apply NoDup_map_filter.
  - intros e1 e2 fid H1 H2 F1 F2.
    destruct (get_features_entries st v entries Hres e1 H1) as (l1 & w1 & _ & _ & Hw1 & ->).
    destruct (get_features_entries st v entries Hres e2 H2) as (l2 & w2 & _ & _ & Hw2 & ->).
    simpl in F1, F2. assert (w2 = w1) as -> by congruence.
    apply intersecting_features_In in F1 as (f1 & g1 & Hin1 & Hid1 & Hown1 & _).
    apply intersecting_features_In in F2 as (f2 & g2 & Hin2 & Hid2 & Hown2 & _).
    assert (f1 = f2) as ->
        by (apply (NoDup_map_key ft_uid (features st));
            first [exact Hpk | assumption | congruence]).
    assert (dl_uid l1 = dl_uid l2) as -> by congruence. reflexivity.
Qed.

Lemma add_layer_related st v l :
  existsb (fun row => (fst row =? gv_uid v)%string && (snd row =? dl_uid l)%string)
          (geoview_layers st) = true
  <-> associated st v (dl_uid l).
Proof.
  unfold associated. rewrite existsb_exists. split.
  - intros ([a b] & Hin & Hc). simpl in Hc. apply andb_prop in Hc as [Ha Hb].
    apply String.eqb_eq in Ha, Hb. now subst.
  - intro Hin. exists (gv_uid v, dl_uid l). split; [assumption|]. simpl.
    now rewrite !String.eqb_refl.
Qed.

(** [add_layer] relates the layer to the view, does so once however often
    it is called, keeps the pairs of the join table distinct and writes no
    other table: the six other tables of the store are as before. *)
Theorem add_layer_once st v l :
  associated (add_layer st v l) v (dl_uid l)
  /\ add_layer (add_layer st v l) v l = add_layer st v l
  /\ (join_unique st -> join_unique (add_layer st v l))
  /\ (apitokens (add_layer st v l) = apitokens st
      /\ datalayers (add_layer st v l) = datalayers st
      /\ geoviews (add_layer st v l) = geoviews st
      /\ features (add_layer st v l) = features st
      /\ geoviewroles (add_layer st v l) = geoviewroles st
      /\ datalayerroles (add_layer st v l) = datalayerroles st).
Proof.
  assert (Hrel : associated (add_layer st v l) v (dl_uid l)).
  { unfold add_layer. destruct (existsb _ (geoview_layers st)) eqn:E.
    - now apply add_layer_related.
    - unfold associated. simpl. apply in_or_app. right. now left. }
  split; [exact Hrel|]. split; [|split].
  - apply add_layer_related in Hrel. unfold add_layer at 1. now rewrite Hrel.
  - intro Hu. unfold add_layer. destruct (existsb _ (geoview_layers st)) eqn:E; [exact Hu|].
    unfold join_unique. simpl. apply NoDup_app; [exact Hu | repeat constructor; intros [] |].
    intros row Hin [<- | []].
    assert (Hex : existsb (fun row => (fst row =? gv_uid v)%string
                                      && (snd row =? dl_uid l)%string)
                          (geoview_layers st) = true)
      by now apply add_layer_related.
    congruence.
  - unfold add_layer. destruct (existsb _ (geoview_layers st)); repeat split; reflexivity.
Qed.

(** Removing a layer that [add_layer] has just related to the view gives
    the store back. *)
Theorem remove_layer_add_layer st v l :
  ~ associated st v (dl_uid l) ->
  remove_layer (add_layer st v l) v l = st.
Proof.
  intro Hnot. unfold add_layer.
  destruct (existsb _ (geoview_layers st)) eqn:E.
  - apply add_layer_related in E. contradiction.
  - unfold remove_layer. simpl. rewrite filter_app. simpl.
    rewrite !String.eqb_refl. simpl. rewrite app_nil_r.
    rewrite filter_all; [destruct st; reflexivity|].
    intros [a b] Hin. simpl. apply negb_true_iff.
    destruct (String.eqb_spec a (gv_uid v)) as [-> | ?]; [|reflexivity].
    destruct (String.eqb_spec b (dl_uid l)) as [-> | ?]; [|reflexivity].
    now elim Hnot.
Qed.

(** After [remove_layer] the layer is no longer related to the view and has
    no entry in its projection; the layers of every other view, the layer
    itself and the features stay as they were. *)
Theorem remove_layer_hides st v l :
  ~ associated (remove_layer st v l) v (dl_uid l)
  /\ (forall entries, get_features intersects (remove_layer st v l) v = inr entries ->
      ~ In (dl_uid l) (map entry_uid entries))
  /\ (forall v', gv_uid v' <> gv_uid v ->
      layers_all (remove_layer st v l) v' = layers_all st v')
  /\ datalayers (remove_layer st v l) = datalayers st
  /\ features (remove_layer st v l) = features st.
Proof.
  assert (Hnot : ~ associated (remove_layer st v l) v (dl_uid l)).
  { unfold associated, remove_layer. simpl. intro Hin.
    apply filter_In in Hin as [_ Hc]. simpl in Hc.
    now rewrite !String.eqb_refl in Hc. }
  split; [exact Hnot|]. split; [|split; [|split; reflexivity]].
  - intros entries Hres Hin. apply in_map_iff in Hin as (e & He & Hin).
    destruct (get_features_entries _ v entries Hres e Hin) as (l' & w & Hl & _ & _ & ->).
    simpl in He. apply layers_all_In in Hl as [_ Ha]. rewrite He in Ha. contradiction.
  - intros v' Hne. unfold layers_all, remove_layer. simpl.
    induction (geoview_layers st) as [|[a b] rows IH]; simpl; [reflexivity|].
    destruct (String.eqb_spec a (gv_uid v)) as [-> | Ha]; simpl.
    + destruct (String.eqb_spec (gv_uid v) (gv_uid v')) as [E | _]; [now elim Hne|].
      destruct (b =? dl_uid l)%string; simpl; [exact IH|].
      destruct (String.eqb_spec (gv_uid v) (gv_uid v')) as [E | _]; [now elim Hne|].
      exact IH.
    + now rewrite IH.
Qed.

End ProjectionMore.

(** ** The role handlers *)

Section HandlersMore.

Variable Geometry : Type.
Variable has_layer_permissions : Store Geometry -> option string -> string -> Role -> bool.
Variable has_geoview_permissions : Store Geometry -> option string -> string -> Role -> bool.
Implicit Types (st : Store Geometry) (l : DataLayer) (r : Role).

(** Each layer grant leaves the bindings as they are or appends one. *)
Lemma addLayer_appends r st token_key layer_uid token_uid :
  exists rs,
    snd (addLayer has_layer_permissions r st token_key layer_uid token_uid)
    = set_datalayerroles st (datalayerroles st ++ rs).
Proof.
  destruct r; simpl;
    [unfold addLayerViewer | unfold addLayerEditor | unfold addLayerOwner];
    destruct (has_layer_permissions st token_key layer_uid OWNER); simpl;
    first [ now (eexists [_]) | exists []; rewrite app_nil_r; destruct st; reflexivity ].
Qed.

Lemma addGeoView_unfold r st token_key geo_uid token_uid :
  addGeoView has_geoview_permissions r st token_key geo_uid token_uid
  = if has_geoview_permissions st token_key geo_uid OWNER
    then (JsonError "Added access for token.",
          set_geoviewroles st (geoviewroles st ++ [mkGeoViewRole token_uid r geo_uid]))
    else (JsonError "Not permitted to edit GeoView.", st).
Proof.
  unfold addGeoView. destruct (has_geoview_permissions st token_key geo_uid OWNER);
    [destruct r|]; reflexivity.
Qed.

(** No grant handler, for a layer or for a view, whoever calls it and
    whatever it is given, takes a layer permission away. *)
Theorem grants_keep_permissions r0 st caller uid token_uid l token_key r :
  has_permissions st l token_key r = true ->
  has_permissions (snd (addLayer has_layer_permissions r0 st caller uid token_uid))
                  l token_key r = true
  /\ has_permissions (snd (addGeoView has_geoview_permissions r0 st caller uid token_uid))
                     l token_key r = true.
Proof.
  intro H. split.
  - destruct (addLayer_appends r0 st caller uid token_uid) as (rs & ->).
    now apply has_permissions_more_roles.
  - rewrite addGeoView_unfold.
    destruct (has_geoview_permissions st caller uid OWNER); exact H.
Qed.

Lemma GeoViewRole_delete_added st geo_uid r token_uid :
  GeoViewRole_delete
    (set_geoviewroles st (geoviewroles st ++ [mkGeoViewRole token_uid r geo_uid]))
    geo_uid r token_uid
  = GeoViewRole_delete st geo_uid r token_uid.
Proof.
  unfold GeoViewRole_delete. simpl. rewrite filter_app. simpl.
  rewrite !String.eqb_refl, role_eqb_refl. simpl. now rewrite app_nil_r.
Qed.

(** A view grant by an Owner writes the binding, for each of the three
    roles; a revoke that follows it leaves what the revoke alone would have
    left, which is the store itself when the token had no such binding
    before; no layer binding is touched on the way. *)
Theorem geoview_grant_then_revoke r st caller caller' geo_uid token_uid :
  has_geoview_permissions st caller geo_uid OWNER = true ->
  has_geoview_permissions
    (snd (addGeoView has_geoview_permissions r st caller geo_uid token_uid))
    caller' geo_uid OWNER = true ->
  let granted := snd (addGeoView has_geoview_permissions r st caller geo_uid token_uid) in
  let revoked := snd (removeGeoView has_geoview_permissions r granted caller' geo_uid
                                    token_uid) in
  geoviewroles granted = geoviewroles st ++ [mkGeoViewRole token_uid r geo_uid]
  /\ revoked = GeoViewRole_delete st geo_uid r token_uid
  /\ ((forall b, In b (geoviewroles st) ->
       ~ (gvr_geo_view_id b = geo_uid /\ gvr_role b = r /\ gvr_token_id b = token_uid)) ->
      revoked = st)
  /\ datalayerroles granted = datalayerroles st
  /\ datalayerroles revoked = datalayerroles st.
Proof.
  intros Hg. rewrite addGeoView_unfold, Hg. simpl snd. intro Hg'. cbv zeta.
  unfold removeGeoView. rewrite Hg'. simpl snd. rewrite GeoViewRole_delete_added.
  split; [reflexivity|]. split; [reflexivity|]. split; [|split; reflexivity].
  intro Habsent. unfold GeoViewRole_delete. rewrite filter_all; [destruct st; reflexivity|].
  intros b Hb. apply negb_true_iff.
  destruct (String.eqb_spec (gvr_geo_view_id b) geo_uid) as [Hv|]; [|reflexivity].
  destruct (role_eqb (gvr_role b) r) eqn:Hr; [|reflexivity].
  destruct (String.eqb_spec (gvr_token_id b) token_uid) as [Ht|]; [|reflexivity].
  exfalso. apply (Habsent b Hb). apply role_eqb_eq in Hr. auto.
Qed.

Lemma DataLayerRole_delete_added st layer_uid r token_uid :
  DataLayerRole_delete
    (set_datalayerroles st (datalayerroles st ++ [mkDataLayerRole token_uid r layer_uid]))
    layer_uid r token_uid
  = DataLayerRole_delete st layer_uid r token_uid.
Proof.
  unfold DataLayerRole_delete. simpl. rewrite filter_app. simpl.
  rewrite !String.eqb_refl, role_eqb_refl. simpl. now rewrite app_nil_r.
Qed.

(** A layer revoke that follows the grant of the same role to the same
    token leaves what the revoke alone would have left: the store itself
    when the token had no such binding before. *)
Theorem layer_grant_then_revoke r st caller caller' layer_uid token_uid :
  has_layer_permissions st caller layer_uid OWNER = true ->
  has_layer_permissions
    (snd (addLayer has_layer_permissions r st caller layer_uid token_uid))
    caller' layer_uid OWNER = true ->
  let granted := snd (addLayer has_layer_permissions r st caller layer_uid token_uid) in
  let revoked := snd (removeLayer has_layer_permissions r granted caller' layer_uid
                                  token_uid) in
  revoked = DataLayerRole_delete st layer_uid r token_uid
  /\ ((forall b, In b (datalayerroles st) -> ~ matches layer_uid r token_uid b) ->
      revoked = st).
Proof.
  intros Hg Hg'. cbv zeta.
  assert (E : snd (removeLayer has_layer_permissions r
                     (snd (addLayer has_layer_permissions r st caller layer_uid token_uid))
                     caller' layer_uid token_uid)
              = DataLayerRole_delete st layer_uid r token_uid).
  { rewrite removeLayer_unfold, Hg'. simpl snd. revert Hg'.
    destruct r; simpl;
      [unfold addLayerViewer | unfold addLayerEditor | unfold addLayerOwner];
      rewrite Hg; simpl snd; intros _;
      first [apply DataLayerRole_delete_added | reflexivity]. }
  split; [exact E|]. intro Habsent. rewrite E. now apply DataLayerRole_delete_absent.
Qed.

(** An Owner may revoke the Owner role of the only token that has it: after
    that no key at all passes the Owner check on the layer, so no grant or
    revoke guarded by it can follow. *)
Theorem removeLayerOwner_last_owner st caller l token_uid :
  has_layer_permissions st caller (dl_uid l) OWNER = true ->
  (forall b, In b (datalayerroles st) -> dlr_layer_id b = dl_uid l -> dlr_role b = OWNER ->
             dlr_token_id b = token_uid) ->
  forall token_key,
    has_permissions
      (snd (removeLayerOwner has_layer_permissions st caller (dl_uid l) token_uid))
      l token_key OWNER = false.
Proof.
  intros Hg Hsole token_key. unfold removeLayerOwner. rewrite Hg. simpl snd.
  destruct (has_permissions _ l token_key OWNER) eqn:E; [|reflexivity].
  destruct (truthy token_key) eqn:T.
  - destruct token_key as [k|]; [|discriminate].
    assert (Hk : k <> EmptyString) by (intros ->; discriminate T).
    apply has_permissions_private in E as (r' & (b & Hin & _ & Hl & Hr) & Hle);
      [| now rewrite andb_false_r | assumption].
    destruct r'; try discriminate.
    apply DataLayerRole_delete_In in Hin as [Hin Hn].
    exfalso. apply Hn. repeat split; auto.
  - rewrite has_permissions_falsy in E by assumption.
    now rewrite andb_false_r in E.
Qed.

End HandlersMore.

(** ** The token key of a request *)

(** [get_token_key] never hands on an empty key: it gives the token of the
    query string when that is not empty, else the non-empty token of the
    form data, else nothing. *)
Theorem get_token_key_truthy (request : Request) :
  (get_token_key request = None \/ truthy (get_token_key request) = true)
  /\ (truthy (dict_get (GET request) "token") = true ->
      get_token_key request = dict_get (GET request) "token")
  /\ (truthy (dict_get (GET request) "token") = false ->
      truthy (dict_get (POST request) "token") = true ->
      get_token_key request = dict_get (POST request) "token")
  /\ (truthy (dict_get (GET request) "token") = false ->
      truthy (dict_get (POST request) "token") = false ->
      get_token_key request = None).
Proof.
  unfold get_token_key.
  destruct (truthy (dict_get (GET request) "token")) eqn:G;
    destruct (truthy (dict_get (POST request) "token")) eqn:P;
    repeat split; intros; try discriminate; try reflexivity; auto.
Qed.

(** ** The upload handler *)

Lemma last_chars_length (n : nat) (s : Text) : (List.length (last_chars n s) <= n)%nat.
Proof. unfold last_chars. rewrite length_skipn. lia. Qed.

Lemma text_eqb_eq (a b : Text) : text_eqb a b = true -> a = b.
Proof. unfold text_eqb. destruct (list_eq_dec N.eq_dec a b); [auto | discriminate]. Qed.

Section UploadMore.

Variable Geometry : Type.
Variable upper_char : N -> N.
Variable write_chunks : Text -> option PyExn.
Variable new_DataOperator : string -> option PyExn.
Variable new_Importer : string -> option PyExn.
Variable data_create_layer :
  Store Geometry -> string -> string -> PublicArg -> option string
  -> PyExn + (string * Store Geometry).
Variable importer_import_shapefile :
  Store Geometry -> string -> Text -> string -> PyExn + Store Geometry.
Variable importer_import_geojson_file :
  Store Geometry -> string -> Text -> string -> PyExn + Store Geometry.

(** Three characters never spell JSON. *)
Lemma ext_never_json (name : Text) :
  text_eqb (upper upper_char (last_chars 3 name)) (text_of_string "JSON") = false.
Proof.
  destruct (text_eqb _ _) eqn:E; [|reflexivity].
  apply text_eqb_eq in E. apply (f_equal (@List.length N)) in E.
  unfold upper in E. rewrite length_map in E.
  pose proof (last_chars_length 3 name). simpl in E. lia.
Qed.

(** Whatever the file name, the form data and the behaviour of the file
    write, of [create_layer] and of the importer, the handler never calls
    [import_geojson_file]: the extension is the last three characters of the
    name and is compared with the four of JSON.  The only import it makes is
    [import_shapefile], at most once, only for a name whose last three
    characters upper-case to ZIP, and only after the layer was created and
    the Owner binding of the uploader's token was saved. *)
Theorem handle_uploaded_file_never_geojson (st : Store Geometry) (name : Text)
        (request : list (string * string)) :
  let run := handle_uploaded_file upper_char write_chunks new_DataOperator new_Importer
               data_create_layer importer_import_shapefile importer_import_geojson_file
               st name request in
  ~ In import_geojson_file (run_imports run)
  /\ (run_imports run = [] \/ run_imports run = [import_shapefile])
  /\ (In import_shapefile (run_imports run) ->
      upper upper_char (last_chars 3 name) = text_of_string "ZIP"
      /\ exists token_key des is_public layer_uid st1 st2,
          dict_get request "token" = Some token_key
          /\ dict_get request "des" = Some des /\ des <> EmptyString
          /\ data_create_layer st token_key des is_public (dict_get request "props")
             = inr (layer_uid, st1)
          /\ save_owner_role st1 (Some token_key) layer_uid = inr st2).
Proof.
  cbv zeta. unfold handle_uploaded_file, dict_item, local. rewrite ext_never_json.
  destruct (write_chunks name); [simpl; intuition|].
  destruct (dict_get request "token") as [token_key|] eqn:Ht; [|simpl; intuition].
  destruct (new_DataOperator token_key); [simpl; intuition|].
  destruct (dict_get request "des") as [des|] eqn:Hd; [|simpl; intuition].
  destruct (String.eqb_spec des EmptyString) as [-> | Hne]; [simpl; intuition|].
  simpl negb. cbv iota.
  destruct (data_create_layer st token_key des _ (dict_get request "props"))
    as [e | [layer_uid st1]] eqn:Hc; [simpl; intuition|].
  destruct (save_owner_role st1 (Some token_key) layer_uid) as [e | st2] eqn:Hs;
    [simpl; intuition|].
  destruct (new_Importer token_key); [simpl; intuition|].
  destruct (text_eqb (upper upper_char (last_chars 3 name)) (text_of_string "ZIP")) eqn:Hz.
  - apply text_eqb_eq in Hz.
    destruct (importer_import_shapefile st2 token_key name layer_uid); simpl;
      (split; [intros [H | []]; discriminate H|]); (split; [now right|]);
      intros _; (split; [exact Hz|]); eauto 12.
  - simpl. intuition.
Qed.

End UploadMore.

(** ** Serialized state *)

Section SerializationMore.

Variable Geometry : Type.
Variable intersects : Geometry -> Geometry -> bool.
Implicit Types (st : Store Geometry) (v : GeoView Geometry) (l : DataLayer).

(** The state of a view with a window, item by item. *)
Lemma GeoView_getstate_window st v w (entries : list Entry) :
  gv_geom v = Some w ->
  get_features intersects st v = inr entries ->
  GeoView_getstate intersects st v
  = inr ([("uid", PyStr (gv_uid v)); ("descriptor", PyStr (gv_descriptor Geometry v))]%string
         ++ (if null_bool (gv_include_geom v) then [("geom", PyGeoJson w)]%string else [])
         ++ [("bbox", PyGeom (gv_bbox Geometry v));
             ("properties", PyText (gv_properties Geometry v));
             ("is_public", PyBool (gv_is_public Geometry v));
             ("layers", PyEntries entries)]%string).
Proof.
  intros Hw Hgf. unfold GeoView_getstate. rewrite Hw, Hgf.
  destruct (gv_include_layers v) as [[|]|], (gv_include_geom v) as [[|]|]; reflexivity.
Qed.

Lemma get_features_loop_flags st v b (layers : list DataLayer) (results : list Entry) :
  get_features_loop intersects st (with_include_layers v b) layers results
  = get_features_loop intersects st v layers results.
Proof.
  revert results. induction layers as [|l ls IH]; intro results; simpl; [reflexivity|].
  destruct (has_permissions st l (gv_token_key v) VIEWER); [|apply IH].
  destruct (filter_geom__intersects intersects (feature_set st l) (gv_geom v));
    [reflexivity | apply IH].
Qed.

(** The state of a view with a window always exists; its [layers] item is
    the projection, its [geom] item is there exactly when [include_geom] is
    true, and the token key, the two flags and [_state] are never part of
    it: its keys are among uid, descriptor, geom, bbox, properties,
    is_public and layers. *)
Theorem GeoView_getstate_items st v w :
  gv_geom v = Some w ->
  exists state entries,
    GeoView_getstate intersects st v = inr state
    /\ get_features intersects st v = inr entries
    /\ dict_get state "layers" = Some (PyEntries entries)
    /\ dict_get state "geom"
       = (if null_bool (gv_include_geom v) then Some (PyGeoJson w) else None)
    /\ dict_get state "token_key" = None
    /\ dict_get state "include_layers" = None
    /\ dict_get state "include_geom" = None
    /\ dict_get state "_state" = None
    /\ (forall key, In key (map fst state) ->
        In key ["uid"; "descriptor"; "geom"; "bbox"; "properties"; "is_public";
                "layers"]%string).
Proof.
  intro Hw. pose proof (get_features_window _ intersects st v w Hw) as Hgf.
  eexists. eexists. split; [apply (GeoView_getstate_window st v w _ Hw Hgf)|].
  split; [exact Hgf|].
  destruct (null_bool (gv_include_geom v)); simpl;
    repeat (split; [reflexivity|]); intros key H; intuition.
Qed.

(** The [include_layers] flag changes nothing: the state carries the
    projection whether it is set, cleared or null; and a view without
    geometry has no state at all, whatever its flags. *)
Theorem GeoView_getstate_include_layers st v b :
  GeoView_getstate intersects st (with_include_layers v b)
  = GeoView_getstate intersects st v
  /\ (gv_geom v = None ->
      GeoView_getstate intersects st v
      = inl (AttributeError "'NoneType' object has no attribute 'geom_type'")).
Proof.
  split.
  - assert (Hgf : get_features intersects st (with_include_layers v b)
                  = get_features intersects st v)
      by apply get_features_loop_flags.
    destruct (gv_geom v) as [w|] eqn:Hw.
    + pose proof (get_features_window _ intersects st v w Hw) as Hv.
      rewrite (GeoView_getstate_window st v w _ Hw Hv).
      rewrite (GeoView_getstate_window st (with_include_layers v b) w _ Hw
                 (eq_trans Hgf Hv)).
      reflexivity.
    + unfold GeoView_getstate. simpl gv_geom. now rewrite Hw.
  - intro Hw. unfold GeoView_getstate. now rewrite Hw.
Qed.

(** The state of a layer always exists; its [features] item is there
    exactly when [include_features] is true and then lists the uids of all
    features of the layer, among them every feature a projection lists under
    the layer; the flag itself and [_state] are never part of it. *)
Theorem DataLayer_getstate_features st l :
  exists state,
    DataLayer_getstate st l = inr state
    /\ dict_get state "features"
       = (if null_bool (dl_include_features l)
          then Some (PyUids (map ft_uid (feature_set st l))) else None)
    /\ dict_get state "include_features" = None
    /\ dict_get state "_state" = None
    /\ (forall v entries e fid,
        get_features intersects st v = inr entries -> In e entries ->
        entry_uid e = dl_uid l -> In fid (entry_features e) ->
        In fid (map ft_uid (feature_set st l))).
Proof.
  unfold DataLayer_getstate.
  destruct (null_bool (dl_include_features l)); simpl;
    (eexists; split; [reflexivity|]; repeat (split; [reflexivity|]));
    intros v entries e fid Hres He Hu Hfid;
    destruct (get_features_entries _ intersects st v entries Hres e He)
      as (l' & w & _ & _ & _ & ->);
    simpl in Hu, Hfid;
    apply intersecting_features_In in Hfid as (f & g & Hin & Hid & Hown & _);
    apply in_map_iff; exists f; (split; [assumption|]);
    apply filter_In; (split; [assumption|]);
    rewrite Hown, Hu; apply String.eqb_refl.
Qed.

End SerializationMore.

(** ** The POST branch of [views.features] *)

Section FeaturesMore.

Variable Geometry : Type.
Variable has_layer_permissions : Store Geometry -> option string -> string -> Role -> bool.
Variable get_layer : Store Geometry -> JValue -> PyExn + DataLayer.

(** [data.create_feature] is reached only on a POST whose body names a
    layer that [get_layer] finds and on which the caller passes the Editor
    check, with a truthy geometry under [content] and truthy properties. *)
Theorem features_creates_after_check (st : Store Geometry) token_key method jsonDict
        geom layer properties :
  views_features has_layer_permissions get_layer st token_key method jsonDict
  = CreateFeature geom layer properties ->
  method = "POST"%string
  /\ has_layer_permissions st token_key (dl_uid layer) EDITOR = true
  /\ (exists v, subscript jsonDict "layer" = inr v /\ jv_truthy v = true
                /\ get_layer st v = inr layer)
  /\ (exists content, subscript jsonDict "content" = inr content
                      /\ subscript content "geom" = inr geom)
  /\ jv_truthy geom = true
  /\ subscript jsonDict "props" = inr properties
  /\ jv_truthy properties = true.
Proof.
  unfold views_features, features_layer, features_geom, features_props.
  destruct (String.eqb_spec method "POST") as [-> | ?]; [|discriminate].
  destruct (subscript jsonDict "layer") as [e | lv]; [discriminate|].
  destruct (jv_truthy lv) eqn:Tl.
  - destruct (get_layer st lv) as [e | found] eqn:Gl; [discriminate|].
    destruct (has_layer_permissions st token_key (dl_uid found) EDITOR) eqn:Hg;
      simpl; [|discriminate].
    destruct (subscript jsonDict "content") as [e | content]; [discriminate|].
    destruct (jv_truthy content).
    + destruct (subscript content "geom") as [e | g] eqn:Sg; [discriminate|].
      destruct (jv_truthy g) eqn:Tg.
      * destruct (subscript jsonDict "props") as [e | p]; [discriminate|].
        destruct (jv_truthy p) eqn:Tp; simpl; [|discriminate].
        intros [= <- <- <-]. repeat split; eauto.
      * destruct (subscript jsonDict "props") as [e | p]; [discriminate|].
        destruct (jv_truthy p); simpl; discriminate.
    + destruct (subscript jsonDict "props") as [e | p]; [discriminate|].
      destruct (jv_truthy p); simpl; discriminate.
  - destruct (subscript jsonDict "content") as [e | content]; [discriminate|].
    destruct (jv_truthy content).
    + destruct (subscript content "geom") as [e | g]; [discriminate|].
      destruct (jv_truthy g).
      * destruct (subscript jsonDict "props") as [e | p]; [discriminate|].
        destruct (jv_truthy p); simpl; discriminate.
      * destruct (subscript jsonDict "props") as [e | p]; [discriminate|].
        destruct (jv_truthy p); simpl; discriminate.
    + destruct (subscript jsonDict "props") as [e | p]; [discriminate|].
      destruct (jv_truthy p); simpl; discriminate.
Qed.

End FeaturesMore.

(** * The further properties at the scenario *)

(** T1 passes the Owner check on l1, hence the Viewer check. *)
Lemma has_permissions_downward_witness :
  has_permissions Scenario.db Scenario.L1 (Some "key1"%string) OWNER = true
  /\ role_le VIEWER OWNER = true
  /\ has_permissions Scenario.db Scenario.L1 (Some "key1"%string) VIEWER = true.
Proof.
  assert (H1 : has_permissions Scenario.db Scenario.L1 (Some "key1"%string) OWNER = true)
    by reflexivity.
  assert (H2 : role_le VIEWER OWNER = true) by reflexivity.
  split; [exact H1 | split; [exact H2|]].
  exact (has_permissions_downward Scenario.Box Scenario.db Scenario.L1
           (Some "key1"%string) OWNER VIEWER H1 H2).
Defined.

(** A key of no credential gets nothing on the private l1. *)
Lemma has_permissions_unknown_credential_witness :
  (truthy (Some "nokey"%string) = false
   \/ exists k, Some "nokey"%string = Some k
                /\ forall t, In t (apitokens Scenario.db) -> tk_key t <> k)
  /\ has_permissions Scenario.db Scenario.L1 (Some "nokey"%string) VIEWER = false.
Proof.
  assert (H : truthy (Some "nokey"%string) = false
              \/ exists k, Some "nokey"%string = Some k
                           /\ forall t, In t (apitokens Scenario.db) -> tk_key t <> k).
  { right. exists "nokey"%string. split; [reflexivity|].
    intros t [<- | [<- | []]]; discriminate. }
  split; [exact H|].
  exact (has_permissions_unknown_credential Scenario.Box Scenario.db Scenario.L1
           (Some "nokey"%string) VIEWER H).
Defined.

(** A binding on l2 does not change what T2 gets on l1. *)
Lemma has_permissions_local_witness :
  apitokens Scenario.db = apitokens Scenario.db_editors
  /\ has_permissions Scenario.db Scenario.L1 (Some "key2"%string) EDITOR
     = has_permissions Scenario.db_editors Scenario.L1 (Some "key2"%string) EDITOR.
Proof.
  assert (H1 : apitokens Scenario.db = apitokens Scenario.db_editors) by reflexivity.
  split; [exact H1|].
  exact (has_permissions_local Scenario.Box Scenario.db Scenario.db_editors Scenario.L1
           (Some "key2"%string) EDITOR H1 eq_refl).
Defined.

(** T1 stays Owner of l1 when it grants Editor to T2. *)
Lemma grants_keep_permissions_witness :
  has_permissions Scenario.db Scenario.L1 (Some "key1"%string) OWNER = true
  /\ has_permissions
       (snd (addLayer has_permission EDITOR Scenario.db (Some "key1"%string) "l1" "t2"))
       Scenario.L1 (Some "key1"%string) OWNER = true.
Proof.
  assert (H1 : has_permissions Scenario.db Scenario.L1 (Some "key1"%string) OWNER = true)
    by reflexivity.
  split; [exact H1|].
  exact (proj1 (grants_keep_permissions Scenario.Box has_permission has_permission EDITOR
                  Scenario.db (Some "key1"%string) "l1" "t2" Scenario.L1
                  (Some "key1"%string) OWNER H1)).
Defined.

(** Read without token, the view shows the public l3 only. *)
Lemma get_features_anonymous_public_witness :
  truthy (gv_token_key Scenario.V_anonymous) = false
  /\ get_features Scenario.box_intersects Scenario.db Scenario.V_anonymous
     = inr [mkEntry "l3" []]
  /\ exists l, In l (datalayers Scenario.db) /\ dl_uid l = "l3"%string
               /\ dl_is_public l = true
               /\ associated Scenario.db Scenario.V_anonymous "l3".
Proof.
  assert (H1 : truthy (gv_token_key Scenario.V_anonymous) = false) by reflexivity.
  assert (H2 : get_features Scenario.box_intersects Scenario.db Scenario.V_anonymous
               = inr [mkEntry "l3" []]) by reflexivity.
  split; [exact H1 | split; [exact H2|]].
  apply (get_features_anonymous_public Scenario.Box Scenario.box_intersects Scenario.db
           Scenario.V_anonymous [mkEntry "l3" []] H1 H2 (mkEntry "l3" [])).
  now left.
Defined.

(** The entry of l1 lists f1 once. *)
Lemma get_features_features_once_witness :
  feature_pk Scenario.db
  /\ get_features Scenario.box_intersects Scenario.db Scenario.V
     = inr [mkEntry "l1" ["f1"%string]; mkEntry "l3" []]
  /\ NoDup (entry_features (mkEntry "l1" ["f1"%string])).
Proof.
  assert (H1 : feature_pk Scenario.db) by (unfold feature_pk; simpl; distinct).
  assert (H2 : get_features Scenario.box_intersects Scenario.db Scenario.V
               = inr [mkEntry "l1" ["f1"%string]; mkEntry "l3" []]) by reflexivity.
  split; [exact H1 | split; [exact H2|]].
  apply (proj1 (get_features_features_once Scenario.Box Scenario.box_intersects Scenario.db
                  Scenario.V _ H1 H2)).
  now left.
Defined.

(** Relating l4 to the view and removing it again changes nothing. *)
Lemma remove_layer_add_layer_witness :
  ~ associated Scenario.db Scenario.V (dl_uid Scenario.L4)
  /\ remove_layer (add_layer Scenario.db Scenario.V Scenario.L4) Scenario.V Scenario.L4
     = Scenario.db.
Proof.
  assert (H1 : ~ associated Scenario.db Scenario.V (dl_uid Scenario.L4)).
  { unfold associated. simpl. intuition discriminate. }
  split; [exact H1|].
  exact (remove_layer_add_layer Scenario.Box Scenario.db Scenario.V Scenario.L4 H1).
Defined.

(** T1, Owner of the view, makes T2 Editor of it and takes that back. *)
Lemma geoview_grant_then_revoke_witness :
  Scenario.view_guard Scenario.db_view (Some "key1"%string) "v" OWNER = true
  /\ snd (removeGeoView Scenario.view_guard EDITOR
            (snd (addGeoView Scenario.view_guard EDITOR Scenario.db_view
                             (Some "key1"%string) "v" "t2"))
            (Some "key1"%string) "v" "t2")
     = GeoViewRole_delete Scenario.db_view "v" EDITOR "t2".
Proof.
  assert (H1 : Scenario.view_guard Scenario.db_view (Some "key1"%string) "v" OWNER = true)
    by reflexivity.
  split; [exact H1|].
  exact (proj1 (proj2 (geoview_grant_then_revoke Scenario.Box Scenario.view_guard EDITOR
                         Scenario.db_view (Some "key1"%string) (Some "key1"%string)
                         "v" "t2" H1 eq_refl))).
Defined.

(** T1 makes T2 Editor of l1 and takes that back: the store is as before. *)
Lemma layer_grant_then_revoke_witness :
  has_permission Scenario.db (Some "key1"%string) "l1" OWNER = true
  /\ snd (removeLayer has_permission EDITOR
            (snd (addLayer has_permission EDITOR Scenario.db (Some "key1"%string) "l1" "t2"))
            (Some "key1"%string) "l1" "t2")
     = Scenario.db.
Proof.
  assert (H1 : has_permission Scenario.db (Some "key1"%string) "l1" OWNER = true)
    by reflexivity.
  split; [exact H1|].
  apply (proj2 (layer_grant_then_revoke Scenario.Box has_permission EDITOR Scenario.db
                  (Some "key1"%string) (Some "key1"%string) "l1" "t2" H1 eq_refl)).
  intros b [<- | []] (_ & Hr & _). discriminate Hr.
Defined.

(** T1, the only Owner of l1, revokes its own Owner role. *)
Lemma removeLayerOwner_last_owner_witness :
  has_permission Scenario.db (Some "key1"%string) (dl_uid Scenario.L1) OWNER = true
  /\ has_permissions
       (snd (removeLayerOwner has_permission Scenario.db (Some "key1"%string)
                              (dl_uid Scenario.L1) "t1"))
       Scenario.L1 (Some "key1"%string) OWNER = false.
Proof.
  assert (H1 : has_permission Scenario.db (Some "key1"%string) (dl_uid Scenario.L1) OWNER
               = true) by reflexivity.
  split; [exact H1|].
  apply (removeLayerOwner_last_owner Scenario.Box has_permission Scenario.db
           (Some "key1"%string) Scenario.L1 "t1" H1).
  intros b [<- | []] _ _. reflexivity.
Defined.

(** The state of the view carries the projection and no token key. *)
Lemma GeoView_getstate_items_witness :
  gv_geom Scenario.V = Some Scenario.unit_square
  /\ exists state,
      GeoView_getstate Scenario.box_intersects Scenario.db Scenario.V = inr state
      /\ dict_get state "layers"
         = Some (PyEntries [mkEntry "l1" ["f1"%string]; mkEntry "l3" []])
      /\ dict_get state "token_key" = None.
Proof.
  assert (H1 : gv_geom Scenario.V = Some Scenario.unit_square) by reflexivity.
  destruct (GeoView_getstate_items Scenario.Box Scenario.box_intersects Scenario.db
              Scenario.V Scenario.unit_square H1)
    as (state & entries & Hs & He & Hl & _ & Ht & _).
  split; [exact H1|]. exists state. split; [exact Hs|]. split; [|exact Ht].
  rewrite Hl. f_equal. f_equal.
  assert (E : inr entries
              = (inr [mkEntry "l1" ["f1"%string]; mkEntry "l3" []] : Exn + list Entry))
    by (rewrite <- He; reflexivity).
  now injection E.
Defined.

(** T1 posts a feature to l1: the Editor check has passed. *)
Lemma features_creates_after_check_witness :
  views_features has_permission Scenario.find_layer Scenario.db (Some "key1"%string)
                 "POST" Scenario.feature_body
  = CreateFeature (JVStr "POINT (0 0)") Scenario.L1 (JVStr "{}")
  /\ has_permission Scenario.db (Some "key1"%string) (dl_uid Scenario.L1) EDITOR = true.
Proof.
  assert (H1 : views_features has_permission Scenario.find_layer Scenario.db
                              (Some "key1"%string) "POST" Scenario.feature_body
               = CreateFeature (JVStr "POINT (0 0)") Scenario.L1 (JVStr "{}"))
    by reflexivity.
  split; [exact H1|].
  exact (proj1 (proj2 (features_creates_after_check Scenario.Box has_permission
                         Scenario.find_layer Scenario.db (Some "key1"%string) "POST"
                         Scenario.feature_body _ _ _ H1))).
Defined.
